(** * Near-Earth objects: entities, database and filters

    A shallow embedding of [models.py], [database.py] and [filters.py].

    Python objects have identity and are mutated in place: the database
    constructor assigns [approach.neo] and appends to [neo.approaches].
    Objects therefore live in a store addressed by references; collections
    hold references, and two references are the same object exactly when
    they are equal.  Exceptions are values of [exn]; a computation that may
    raise returns a [result]. *)

From Stdlib Require Import ZArith Floats.PrimFloat Strings.Ascii.
From Stdlib Require Floats.FloatOps Floats.FloatAxioms Floats.SpecFloat.
From stdpp Require Import base option list functions gmap strings fin_maps.

#[local] Set Warnings "-inexact-float".

(** ** Exceptions and results *)

Inductive exn : Set :=
| AssertionError (msg : option string)
| TypeError
| ValueError
| KeyError (key : string)
| AttributeError
| UnsupportedCriterionError.

#[global] Instance exn_eq_dec : EqDecision exn.
Proof. solve_decision. Defined.

Inductive result (A : Type) : Type :=
| Ok (x : A)
| Raise (e : exn).
Arguments Ok {A} x.
Arguments Raise {A} e.

#[global] Instance result_eq_dec {A} `{EqDecision A} : EqDecision (result A).
Proof. solve_decision. Defined.

#[global] Instance result_ret : MRet result := fun _ x => Ok x.
#[global] Instance result_bind : MBind result := fun _ _ k m =>
  match m with
  | Ok x => k x
  | Raise e => Raise e
  end.

Definition is_Ok {A} (m : result A) : Prop := ∃ x, m = Ok x.

(** ** Values *)

(** [datetime.date]: compared as the tuple (year, month, day). *)
Record date : Set := Date { year : Z; month : Z; day : Z }.

(** [datetime.datetime] at minute precision. *)
Record datetime : Set := Datetime { date_ : date; hour : Z; minute : Z }.

Definition date_eqb (a b : date) : bool :=
  (year a =? year b)%Z && (month a =? month b)%Z && (day a =? day b)%Z.

Definition date_leb (a b : date) : bool :=
  if (year a =? year b)%Z
  then if (month a =? month b)%Z then (day a <=? day b)%Z
       else (month a <? month b)%Z
  else (year a <? year b)%Z.

(** The values that reach the constructors and the filter factory: [None],
    booleans, floats (binary64, as Python's), strings and dates. *)
Inductive pyval : Set :=
| PyNone
| PyBool (b : bool)
| PyFloat (x : float)
| PyStr (s : string)
| PyDate (d : date).

(** What the embedding takes from the Python runtime and from [helpers.py]
    without fixing it: [str.lower], the parsing of a string by [float()]
    ([None] where Python raises [ValueError]) and [helpers.cd_to_datetime]
    ([None] where it raises [ValueError]). *)
Class Runtime : Type := {
  str_lower : string → string;
  float_of_str : string → option float;
  cd_to_datetime : string → option datetime;
}.

Definition float_of_bool (b : bool) : float :=
  if b then PrimFloat.one else PrimFloat.zero.

(** A bool or a float seen as a float, the way Python compares the two. *)
Definition as_number (v : pyval) : option float :=
  match v with
  | PyBool b => Some (float_of_bool b)
  | PyFloat x => Some x
  | _ => None
  end.

Section builtins.
Context {RT : Runtime}.

(** [float(v)] *)
Definition py_float (v : pyval) : result float :=
  match v with
  | PyFloat x => Ok x
  | PyBool b => Ok (float_of_bool b)
  | PyStr s =>
      match float_of_str s with
      | Some x => Ok x
      | None => Raise ValueError
      end
  | PyNone | PyDate _ => Raise TypeError
  end.

End builtins.

(** [bool(v)], the truth value [not v] negates. *)
Definition py_bool (v : pyval) : bool :=
  match v with
  | PyNone => false
  | PyBool b => b
  | PyFloat x => negb (PrimFloat.eqb x PrimFloat.zero)
  | PyStr s => negb (String.eqb s "")
  | PyDate _ => true
  end.

(** [v is not None] *)
Definition is_not_None (v : pyval) : bool :=
  match v with
  | PyNone => false
  | _ => true
  end.

(** The comparators of the [operator] module the factory uses. *)
Inductive operator : Set := op_eq | op_ge | op_le.

(** [a == b] *)
Definition py_eq (a b : pyval) : bool :=
  match as_number a, as_number b with
  | Some x, Some y => PrimFloat.eqb x y
  | _, _ =>
      match a, b with
      | PyNone, PyNone => true
      | PyStr s, PyStr t => String.eqb s t
      | PyDate d, PyDate e => date_eqb d e
      | _, _ => false
      end
  end.

(** [a <= b]; values of unrelated types do not compare. *)
Definition py_le (a b : pyval) : result bool :=
  match as_number a, as_number b with
  | Some x, Some y => Ok (PrimFloat.leb x y)
  | _, _ =>
      match a, b with
      | PyStr s, PyStr t => Ok (String.leb s t)
      | PyDate d, PyDate e => Ok (date_leb d e)
      | _, _ => Raise TypeError
      end
  end.

(** [op(a, b)] *)
Definition apply_op (op : operator) (a b : pyval) : result bool :=
  match op with
  | op_eq => Ok (py_eq a b)
  | op_ge => py_le b a
  | op_le => py_le a b
  end.

(** ** Entities and the object store *)

(** Object identity. *)
Definition ref : Set := nat.

#[global] Instance ref_eq_dec : EqDecision ref := Nat.eq_dec.

(** The message of the assertion both constructors make on the designation;
    an absent designation is formatted as [None]. *)
Definition designation_required (designation : option string) : exn :=
  AssertionError
    (Some ("Attribute designation is required. Value: '"
           +:+ default "None" designation +:+ "' is not allowed")).

Module NearEarthObject.

Record t : Set := mk {
  designation : string;
  name : option string;
  diameter : float;
  hazardous : bool;
  approaches : list ref;
}.

Section init.
Context {RT : Runtime}.

Definition __init__ (designation : option string) (name : option string)
    (diameter hazardous : pyval) : result t :=
  match designation with
  | None => Raise (designation_required designation)
  | Some d =>
      if String.eqb d ""
      then Raise (designation_required designation)
      else
        let name := match name with None => None | Some n => Some n end in
        x ← py_float diameter;
        let diam := if PrimFloat.is_nan x then PrimFloat.nan else x in
        if PrimFloat.ltb PrimFloat.zero diam || PrimFloat.is_nan x
        then Ok (mk d name diam
                    (if negb (py_bool hazardous) then false else py_bool hazardous)
                    [])
        else Raise (AssertionError None)
  end.

End init.
End NearEarthObject.

Module CloseApproach.

Record t : Set := mk {
  designation : string;
  time : datetime;
  distance : float;
  velocity : float;
  neo : option ref;
}.

Section init.
Context {RT : Runtime}.

Definition __init__ (designation : option string) (time : string)
    (distance velocity : pyval) : result t :=
  match designation with
  | None =>
      Raise (designation_required designation)
  | Some d =>
      if String.eqb d ""
      then Raise (designation_required designation)
      else
        match cd_to_datetime time with
        | None => Raise ValueError
        | Some tm =>
            dist ← py_float distance;
            vel ← py_float velocity;
            Ok (mk d tm dist vel None)
        end
  end.

End init.
End CloseApproach.

(** The store: every reference denotes an object of its class. *)
Record heap : Set := Heap {
  neo_at : ref → NearEarthObject.t;
  approach_at : ref → CloseApproach.t;
}.

(** [approach.neo = neo] *)
Definition set_neo (h : heap) (approach : ref) (neo : option ref) : heap :=
  let a := approach_at h approach in
  Heap (neo_at h)
       (<[approach :=
            CloseApproach.mk (CloseApproach.designation a) (CloseApproach.time a)
              (CloseApproach.distance a) (CloseApproach.velocity a) neo]>
          (approach_at h)).

(** [neo.approaches.append(approach)] *)
Definition append_approach (h : heap) (neo approach : ref) : heap :=
  let n := neo_at h neo in
  Heap (<[neo :=
            NearEarthObject.mk (NearEarthObject.designation n)
              (NearEarthObject.name n) (NearEarthObject.diameter n)
              (NearEarthObject.hazardous n)
              (NearEarthObject.approaches n ++ [approach])]>
          (neo_at h))
       (approach_at h).

(** A generator run to its end: the items it yields, in order, and the
    exception that ends it, if one does. *)
Record generator (A : Type) : Type := Generator {
  yielded : list A;
  raised : option exn;
}.
Arguments Generator {A} yielded raised.
Arguments yielded {A} g.
Arguments raised {A} g.

(** A filter as [query] sees it: something called on an approach. *)
Definition callable : Type := heap → ref → result bool.

Module NEODatabase.

Record t : Type := mk {
  _neos : list ref;
  _approaches : list ref;
  _designation_to_neo : gmap string ref;
  _name_to_neo : gmap string ref;
}.

Section database.
Context {RT : Runtime}.

(** The first loop of the constructor, over the NEOs. *)
Fixpoint index_neos (h : heap) (neos : list ref)
    (designation_to_neo name_to_neo : gmap string ref)
    : gmap string ref * gmap string ref :=
  match neos with
  | [] => (designation_to_neo, name_to_neo)
  | neo :: rest =>
      let n := neo_at h neo in
      let designation_to_neo :=
        <[str_lower (NearEarthObject.designation n) := neo]> designation_to_neo in
      let name_to_neo :=
        match NearEarthObject.name n with
        | Some nm => <[str_lower nm := neo]> name_to_neo
        | None => name_to_neo
        end in
      index_neos h rest designation_to_neo name_to_neo
  end.

(** The second loop of the constructor, over the approaches. *)
Fixpoint link_approaches (designation_to_neo : gmap string ref)
    (approaches : list ref) (h : heap) : result heap :=
  match approaches with
  | [] => Ok h
  | app :: rest =>
      let key := str_lower (CloseApproach.designation (approach_at h app)) in
      match designation_to_neo !! key with
      | None => Raise (KeyError key)
      | Some neo =>
          let h := set_neo h app (Some neo) in
          let h := append_approach h neo app in
          link_approaches designation_to_neo rest h
      end
  end.

Definition __init__ (h : heap) (neos approaches : list ref) : result (t * heap) :=
  let '(designation_to_neo, name_to_neo) := index_neos h neos ∅ ∅ in
  h' ← link_approaches designation_to_neo approaches h;
  Ok (mk neos approaches designation_to_neo name_to_neo, h').

Definition get_neo_by_designation (self : t) (designation : string) : option ref :=
  let designation := str_lower designation in
  let neo := _designation_to_neo self !! designation in
  match neo with
  | None => None
  | Some _ => neo
  end.

Definition get_neo_by_name (self : t) (name : string) : option ref :=
  let name := str_lower name in
  let neo := _name_to_neo self !! name in
  match neo with
  | None => None
  | Some _ => neo
  end.

End database.

(** The inner loop of [query]: [Ok true] when no filter rejects the
    approach, [Ok false] at the first that does; later filters are not
    called. *)
Fixpoint semaphor (filters : list callable) (h : heap) (approach : ref)
    : result bool :=
  match filters with
  | [] => Ok true
  | a_filter :: rest =>
      b ← a_filter h approach;
      if negb b then Ok false else semaphor rest h approach
  end.

Fixpoint query_from (approaches : list ref) (filters : list callable)
    (h : heap) : generator ref :=
  match approaches with
  | [] => Generator [] None
  | approach :: rest =>
      match semaphor filters h approach with
      | Raise e => Generator [] (Some e)
      | Ok true =>
          let g := query_from rest filters h in
          Generator (approach :: yielded g) (raised g)
      | Ok false => query_from rest filters h
      end
  end.

Definition query (self : t) (filters : list callable) (h : heap)
    : generator ref :=
  query_from (_approaches self) filters h.

End NEODatabase.

(** ** Filters *)

(** The class of a filter object: the base class or one of its five
    subclasses. *)
Inductive filter_class : Set :=
| AttributeFilter_
| DateFilter
| DistanceFilter
| VelocityFilter
| DiameterFilter
| HazardousFilter.

Module AttributeFilter.

Record t : Set := mk {
  cls : filter_class;
  op : operator;
  value : pyval;
}.

(** The class method [get], as each class defines or inherits it. *)
Definition get (c : filter_class) (h : heap) (approach : ref) : result pyval :=
  let a := approach_at h approach in
  match c with
  | AttributeFilter_ => Raise UnsupportedCriterionError
  | DateFilter => Ok (PyDate (date_ (CloseApproach.time a)))
  | DistanceFilter => Ok (PyFloat (CloseApproach.distance a))
  | VelocityFilter => Ok (PyFloat (CloseApproach.velocity a))
  | DiameterFilter =>
      match CloseApproach.neo a with
      | None => Raise AttributeError
      | Some neo => Ok (PyFloat (NearEarthObject.diameter (neo_at h neo)))
      end
  | HazardousFilter =>
      match CloseApproach.neo a with
      | None => Raise AttributeError
      | Some neo => Ok (PyBool (NearEarthObject.hazardous (neo_at h neo)))
      end
  end.

Definition __call__ (self : t) : callable := fun h approach =>
  x ← get (cls self) h approach;
  apply_op (op self) x (value self).

End AttributeFilter.

Section filters.
Context {RT : Runtime}.

(** [filters.append(mk(v))] under [if v is not None], where [coerce] is the
    conversion the factory applies to the reference value. *)
Definition append_if_supplied (filters : list AttributeFilter.t)
    (c : filter_class) (o : operator) (coerce : pyval → result pyval)
    (v : pyval) : result (list AttributeFilter.t) :=
  if is_not_None v
  then x ← coerce v; Ok (filters ++ [AttributeFilter.mk c o x])
  else Ok filters.

Definition as_is (v : pyval) : result pyval := Ok v.
Definition to_float (v : pyval) : result pyval := x ← py_float v; Ok (PyFloat x).
Definition to_bool (v : pyval) : result pyval := Ok (PyBool (py_bool v)).

Definition create_filters
    (date start_date end_date
     distance_min distance_max
     velocity_min velocity_max
     diameter_min diameter_max
     hazardous : pyval) : result (list AttributeFilter.t) :=
  let filters := [] in
  filters ← append_if_supplied filters DateFilter op_eq as_is date;
  filters ← append_if_supplied filters DateFilter op_ge as_is start_date;
  filters ← append_if_supplied filters DateFilter op_le as_is end_date;
  filters ← append_if_supplied filters DistanceFilter op_ge to_float distance_min;
  filters ← append_if_supplied filters DistanceFilter op_le to_float distance_max;
  filters ← append_if_supplied filters VelocityFilter op_ge to_float velocity_min;
  filters ← append_if_supplied filters VelocityFilter op_le to_float velocity_max;
  filters ← append_if_supplied filters DiameterFilter op_ge to_float diameter_min;
  filters ← append_if_supplied filters DiameterFilter op_le to_float diameter_max;
  filters ← append_if_supplied filters HazardousFilter op_eq to_bool hazardous;
  Ok filters.

End filters.

(** [sys.maxsize], the largest index of the platform. *)
Class Platform : Type := {
  maxsize : Z;
}.

Section limiter.
Context {PF : Platform}.

(** [itertools.islice(iterator, n)] for an integer [n]: a stop that is
    negative or above [sys.maxsize] is refused; otherwise at most [n] items
    are taken, and an exception of the underlying iterator is met only if
    more than it yields are asked for. *)
Definition islice {A} (iterator : generator A) (n : Z) : result (generator A) :=
  if (n <? 0)%Z || (maxsize <? n)%Z then Raise ValueError
  else
    let k := Z.to_nat n in
    Ok (Generator (take k (yielded iterator))
                  (if (k <=? length (yielded iterator))%nat
                   then None else raised iterator)).

Definition limit {A} (iterator : generator A) (n : option Z)
    : result (generator A) :=
  match n with
  | None => Ok iterator
  | Some n =>
      if (n =? 0)%Z then Ok iterator else islice iterator n
  end.

End limiter.

(** ** Loading ([extract.py]) *)

(** What the loaders and the writer take from the runtime and from
    [helpers.py] besides [Runtime]: [str.upper], [str.strip],
    [helpers.datetime_to_str], and the order in which iterating a set of
    strings gives its elements. *)
Class Text : Type := {
  str_upper : string → string;
  str_strip : string → string;
  datetime_to_str : datetime → string;
  set_iter : gset string → list string;
}.

(** The loaders index rows, so besides the exceptions of the constructors
    they can raise [IndexError]. *)
Inductive loader_exn : Set :=
| Raised (e : exn)
| IndexError.

Inductive loading (A : Type) : Type :=
| Loaded (x : A)
| Failed (e : loader_exn).
Arguments Loaded {A} x.
Arguments Failed {A} e.

#[global] Instance loading_ret : MRet loading := fun _ x => Loaded x.
#[global] Instance loading_bind : MBind loading := fun _ _ k m =>
  match m with
  | Loaded x => k x
  | Failed e => Failed e
  end.

Definition lift {A} (m : result A) : loading A :=
  match m with
  | Ok x => Loaded x
  | Raise e => Failed (Raised e)
  end.

(** [row[i]] for a non-negative constant [i]. *)
Definition item (row : list string) (i : nat) : loading string :=
  match row !! i with
  | Some field => Loaded field
  | None => Failed IndexError
  end.

Section extract.
Context {RT : Runtime} {TX : Text}.

(** The three local functions of [load_neos]. *)
Definition _is_empty (field : pyval) : bool :=
  if negb (is_not_None field) || negb (py_eq field (PyStr ""))
  then false else true.

Definition _normalize_diameter (diameter : pyval) : result pyval :=
  match py_float diameter with
  | Ok x => Ok (PyFloat x)
  | Raise ValueError => Ok (PyStr "nan")
  | Raise e => Raise e
  end.

Definition _normalize_hazardous (hazardous : string) : bool :=
  if String.eqb (str_upper hazardous) "Y" then true else false.

(** The loop of [load_neos] over the rows [csv.reader] gives (each a list
    of strings), from row number [i] on, with the NEOs collected so far.
    Opening and reading the file is left to the caller. *)
Fixpoint load_neos_from (i : nat) (reader : list (list string))
    (neos : list NearEarthObject.t) : loading (list NearEarthObject.t) :=
  match reader with
  | [] => Loaded neos
  | row :: rest =>
      match i with
      | 0 => load_neos_from (S i) rest neos
      | S _ =>
          des ← item row 3;
          if _is_empty (PyStr des) then load_neos_from (S i) rest neos
          else
            name_field ← item row 4;
            name ← (if String.eqb name_field "" then Loaded None
                    else name_field ← item row 4; Loaded (Some name_field));
            diameter_field ← item row 15;
            diam ← lift (_normalize_diameter (PyStr diameter_field));
            hazardous_field ← item row 7;
            let haz := _normalize_hazardous hazardous_field in
            neo ← lift (NearEarthObject.__init__ (Some des) name diam
                          (PyBool haz));
            load_neos_from (S i) rest (neos ++ [neo])
      end
  end.

Definition load_neos (reader : list (list string))
    : loading (list NearEarthObject.t) :=
  load_neos_from 0 reader [].

(** The loop of [load_approaches] over the rows of [reader['data']], whose
    fields are strings in the data files. *)
Fixpoint load_approaches_from (data : list (list string))
    (close_approaches : list CloseApproach.t)
    : loading (list CloseApproach.t) :=
  match data with
  | [] => Loaded close_approaches
  | app :: rest =>
      des ← item app 0;
      let des := str_strip des in
      time ← item app 3;
      distance ← item app 4;
      let distance := str_strip distance in
      velocity ← item app 7;
      let velocity := str_strip velocity in
      close_app ← lift (CloseApproach.__init__ (Some des) time
                          (PyStr distance) (PyStr velocity));
      load_approaches_from rest (close_approaches ++ [close_app])
  end.

Definition load_approaches (data : list (list string))
    : loading (list CloseApproach.t) :=
  load_approaches_from data [].

End extract.

(** ** Writing ([write.py]) *)

#[local] Set Warnings "-register-all".

(** The values the rows hold, and a [dict] as the list of its items in
    insertion order. *)
Inductive jvalue : Set :=
| JStr (s : string)
| JFloat (x : float)
| JBool (b : bool)
| JDict (items : list (string * jvalue)).

(** [d[k] = v]: an existing key keeps its place and takes the new value, a
    new key goes last. *)
Fixpoint dict_set (k : string) (v : jvalue) (d : list (string * jvalue))
    : list (string * jvalue) :=
  match d with
  | [] => [(k, v)]
  | (k', v') :: rest =>
      if String.eqb k k' then (k, v) :: rest else (k', v') :: dict_set k v rest
  end.

(** [{**a, **b}] *)
Definition dict_merge (a b : list (string * jvalue)) : list (string * jvalue) :=
  fold_left (λ d kv, dict_set kv.1 kv.2 d) b a.

(** [d[k]] *)
Fixpoint dict_get (k : string) (d : list (string * jvalue)) : result jvalue :=
  match d with
  | [] => Raise (KeyError k)
  | (k', v) :: rest => if String.eqb k k' then Ok v else dict_get k rest
  end.

(** The mapping a [**] unpacks. *)
Definition as_mapping (v : jvalue) : result (list (string * jvalue)) :=
  match v with
  | JDict items => Ok items
  | _ => Raise TypeError
  end.

(** A [for] loop over a generator, threading what the body updates. *)
Fixpoint for_each {A B} (items : list A) (body : B → A → result B) (acc : B)
    : result B :=
  match items with
  | [] => Ok acc
  | x :: rest => acc ← body acc x; for_each rest body acc
  end.

Definition for_in {A B} (g : generator A) (body : B → A → result B) (acc : B)
    : result B :=
  acc ← for_each (yielded g) body acc;
  match raised g with
  | None => Ok acc
  | Some e => Raise e
  end.

(** The columns [write_to_csv] declares. *)
Definition fieldnames : list string :=
  ["datetime_utc"; "distance_au"; "velocity_km_s";
   "designation"; "name"; "diameter_km"; "potentially_hazardous"].

Section write.
Context {RT : Runtime} {TX : Text}.

(** [SupportedFormats.supported_formats_str], over the formats in the
    order the set gives them. *)
Fixpoint supported_formats_str_from (len i : nat) (formats : list string)
    (str_f : string) : string :=
  match formats with
  | [] => str_f
  | f :: rest =>
      let str_f :=
        if (i <? len - 1)%nat then str_f +:+ "'" +:+ f +:+ "' ,"
        else str_f +:+ "'" +:+ f +:+ "'" in
      supported_formats_str_from len (S i) rest str_f
  end.

Definition supported_formats_str (supported_formats : gset string) : string :=
  supported_formats_str_from (size supported_formats) 0
    (set_iter supported_formats) "".

Definition get_neo_model (h : heap) (app : ref) (format : string)
    : result (list (string * jvalue)) :=
  let neo_of :=
    match CloseApproach.neo (approach_at h app) with
    | None => Raise AttributeError
    | Some neo => Ok (neo_at h neo)
    end in
  let neo_model := [] in
  neo_model ←
    (if String.eqb format "csv"
     then
       n ← neo_of;
       Ok [("neo",
            JDict
              [("designation", JStr (NearEarthObject.designation n));
               ("name",
                JStr (match NearEarthObject.name n with
                      | None => ""
                      | Some nm => nm
                      end));
               ("diameter_km",
                JFloat (if negb (PrimFloat.is_nan (NearEarthObject.diameter n))
                        then NearEarthObject.diameter n else PrimFloat.nan));
               ("potentially_hazardous",
                JStr (if NearEarthObject.hazardous n
                      then "True" else "False"))])]
     else Ok neo_model);
  neo_model ←
    (if String.eqb format "json"
     then
       n ← neo_of;
       Ok [("neo",
            JDict
              [("designation", JStr (NearEarthObject.designation n));
               ("name",
                JStr (match NearEarthObject.name n with
                      | None => ""
                      | Some nm => nm
                      end));
               ("diameter_km",
                JFloat (if negb (PrimFloat.is_nan (NearEarthObject.diameter n))
                        then NearEarthObject.diameter n else PrimFloat.nan));
               ("potentially_hazardous",
                JBool (NearEarthObject.hazardous n))])]
     else Ok neo_model);
  Ok neo_model.

Definition get_ca_model (h : heap) (app : ref) : list (string * jvalue) :=
  let a := approach_at h app in
  [("datetime_utc", JStr (datetime_to_str (CloseApproach.time a)));
   ("distance_au", JFloat (CloseApproach.distance a));
   ("velocity_km_s", JFloat (CloseApproach.velocity a))].

Definition unsupported_format : exn :=
  AssertionError
    (Some ("Unsupported format. Supported formats: "
           +:+ supported_formats_str {["csv"; "json"]})).

Definition serialize (h : heap) (approaches : generator ref) (format : string)
    : result (list (list (string * jvalue))) :=
  let supported_formats : gset string := {["csv"; "json"]} in
  if decide (str_lower format ∈ supported_formats)
  then
    let result := [] in
    result ←
      (if String.eqb (str_lower format) "csv"
       then
         for_in approaches
           (λ result app,
              neo_model ← get_neo_model h app "csv";
              neo ← dict_get "neo" neo_model;
              neo ← as_mapping neo;
              let row := dict_merge neo (get_ca_model h app) in
              Ok (result ++ [row]))
           result
       else Ok result);
    result ←
      (if String.eqb (str_lower format) "json"
       then
         for_in approaches
           (λ result app,
              let ca := get_ca_model h app in
              neo_model ← get_neo_model h app "json";
              let row := dict_merge ca neo_model in
              Ok (result ++ [row]))
           result
       else Ok result);
    Ok result
  else Raise unsupported_format.

End write.

(** ** Notions the statements use *)

Section keys.
Context {RT : Runtime}.

(** The key under which the constructor indexes a NEO, and the key under
    which it looks an approach up: the lowercased designation. *)
Definition neo_key (h : heap) (neo : ref) : string :=
  str_lower (NearEarthObject.designation (neo_at h neo)).

Definition approach_key (h : heap) (approach : ref) : string :=
  str_lower (CloseApproach.designation (approach_at h approach)).

(** The lowercased name of a NEO, when it has one. *)
Definition name_key (h : heap) (neo : ref) : option string :=
  str_lower <$> NearEarthObject.name (neo_at h neo).

(** No two distinct NEO objects of the collection share a designation up
    to case. *)
Definition unique_designations (h : heap) (neos : list ref) : Prop :=
  ∀ r r', r ∈ neos → r' ∈ neos → neo_key h r = neo_key h r' → r = r'.

End keys.

(** Two stores that differ at most in the links the database constructor
    writes: [approach.neo] and [neo.approaches]. *)
Record same_attributes (h h' : heap) : Prop := {
  same_neo_designation r :
    NearEarthObject.designation (neo_at h' r)
    = NearEarthObject.designation (neo_at h r);
  same_neo_name r :
    NearEarthObject.name (neo_at h' r) = NearEarthObject.name (neo_at h r);
  same_neo_diameter r :
    NearEarthObject.diameter (neo_at h' r)
    = NearEarthObject.diameter (neo_at h r);
  same_neo_hazardous r :
    NearEarthObject.hazardous (neo_at h' r)
    = NearEarthObject.hazardous (neo_at h r);
  same_approach_designation a :
    CloseApproach.designation (approach_at h' a)
    = CloseApproach.designation (approach_at h a);
  same_approach_time a :
    CloseApproach.time (approach_at h' a) = CloseApproach.time (approach_at h a);
  same_approach_distance a :
    CloseApproach.distance (approach_at h' a)
    = CloseApproach.distance (approach_at h a);
  same_approach_velocity a :
    CloseApproach.velocity (approach_at h' a)
    = CloseApproach.velocity (approach_at h a);
}.

(** The reference value of a filter is of a type its attribute compares
    with under its operator: [==] takes any value, an ordering takes a date
    against a date and a number against a number. *)
Definition comparable (f : AttributeFilter.t) : bool :=
  match AttributeFilter.op f with
  | op_eq => true
  | op_ge | op_le =>
      match AttributeFilter.cls f, AttributeFilter.value f with
      | AttributeFilter_, _ => true
      | DateFilter, PyDate _ => true
      | DateFilter, _ => false
      | _, (PyBool _ | PyFloat _) => true
      | _, _ => false
      end
  end.

(** A callable is a predicate on a collection when calling it on each of
    its approaches returns a boolean. *)
Definition predicate_on (h : heap) (approaches : list ref) (f : callable) : Prop :=
  ∀ a, a ∈ approaches → is_Ok (f h a).

(** Criteria as the command line hands them over, already typed: an
    omitted criterion is [None]. *)
Definition of_date (criterion : option date) : pyval :=
  from_option PyDate PyNone criterion.
Definition of_float (criterion : option float) : pyval :=
  from_option PyFloat PyNone criterion.
Definition of_bool (criterion : option bool) : pyval :=
  from_option PyBool PyNone criterion.

(** The factory as the specification words it: one predicate of the
    matching class, operator and value for a supplied criterion, none for an
    omitted one, in the order date, start date, end date, distance-min,
    distance-max, velocity-min, velocity-max, diameter-min, diameter-max,
    hazardous. *)
Definition predicate_for {A} (c : filter_class) (o : operator)
    (inj : A → pyval) (criterion : option A) : list AttributeFilter.t :=
  match criterion with
  | Some x => [AttributeFilter.mk c o (inj x)]
  | None => []
  end.

Definition predicates_for_criteria
    (date start_date end_date : option date)
    (distance_min distance_max velocity_min velocity_max
     diameter_min diameter_max : option float)
    (hazardous : option bool) : list AttributeFilter.t :=
  predicate_for DateFilter op_eq PyDate date
  ++ predicate_for DateFilter op_ge PyDate start_date
  ++ predicate_for DateFilter op_le PyDate end_date
  ++ predicate_for DistanceFilter op_ge PyFloat distance_min
  ++ predicate_for DistanceFilter op_le PyFloat distance_max
  ++ predicate_for VelocityFilter op_ge PyFloat velocity_min
  ++ predicate_for VelocityFilter op_le PyFloat velocity_max
  ++ predicate_for DiameterFilter op_ge PyFloat diameter_min
  ++ predicate_for DiameterFilter op_le PyFloat diameter_max
  ++ predicate_for HazardousFilter op_eq PyBool hazardous.

(** 1 for a supplied criterion, 0 for an omitted one. *)
Definition supplied {A} (criterion : option A) : nat :=
  match criterion with
  | Some _ => 1
  | None => 0
  end.

(** The same for criteria that arrive as arbitrary values.  A date
    criterion is kept as it is given; a bound is what [float()] makes of it,
    and none if it is [None]; the hazard flag is the truth value of what is
    given. *)
Definition given (v : pyval) : nat := if is_not_None v then 1 else 0.

Definition predicate_as_given (c : filter_class) (o : operator) (v : pyval)
    : list AttributeFilter.t :=
  if is_not_None v then [AttributeFilter.mk c o v] else [].

Definition predicate_for_flag (v : pyval) : list AttributeFilter.t :=
  if is_not_None v
  then [AttributeFilter.mk HazardousFilter op_eq (PyBool (py_bool v))]
  else [].

Definition float_bound `{Runtime} (v : pyval) : result (option float) :=
  if is_not_None v then x ← py_float v; Ok (Some x) else Ok None.

Definition predicates_for_values
    (date start_date end_date : pyval)
    (distance_min distance_max velocity_min velocity_max
     diameter_min diameter_max : option float)
    (hazardous : pyval) : list AttributeFilter.t :=
  predicate_as_given DateFilter op_eq date
  ++ predicate_as_given DateFilter op_ge start_date
  ++ predicate_as_given DateFilter op_le end_date
  ++ predicate_for DistanceFilter op_ge PyFloat distance_min
  ++ predicate_for DistanceFilter op_le PyFloat distance_max
  ++ predicate_for VelocityFilter op_ge PyFloat velocity_min
  ++ predicate_for VelocityFilter op_le PyFloat velocity_max
  ++ predicate_for DiameterFilter op_ge PyFloat diameter_min
  ++ predicate_for DiameterFilter op_le PyFloat diameter_max
  ++ predicate_for_flag hazardous.

(** What the criteria ask of an approach linked to its NEO, in terms of
    the attributes themselves: an omitted criterion asks nothing.  An
    approach without NEO meets no criteria. *)
Definition within {A} (test : A → bool) (criterion : option A) : bool :=
  from_option test true criterion.

Definition meets_criteria (h : heap)
    (date start_date end_date : option date)
    (distance_min distance_max velocity_min velocity_max
     diameter_min diameter_max : option float)
    (hazardous : option bool) (approach : ref) : bool :=
  let a := approach_at h approach in
  let day := date_ (CloseApproach.time a) in
  match CloseApproach.neo a with
  | None => false
  | Some neo =>
      let n := neo_at h neo in
      within (λ d, date_eqb day d) date
      && within (λ d, date_leb d day) start_date
      && within (λ d, date_leb day d) end_date
      && within (λ x, PrimFloat.leb x (CloseApproach.distance a)) distance_min
      && within (λ x, PrimFloat.leb (CloseApproach.distance a) x) distance_max
      && within (λ x, PrimFloat.leb x (CloseApproach.velocity a)) velocity_min
      && within (λ x, PrimFloat.leb (CloseApproach.velocity a) x) velocity_max
      && within (λ x, PrimFloat.leb x (NearEarthObject.diameter n)) diameter_min
      && within (λ x, PrimFloat.leb (NearEarthObject.diameter n) x) diameter_max
      && within (λ b, Bool.eqb (NearEarthObject.hazardous n) b) hazardous
  end.

(** A data row of the NEO file that [load_neos] keeps: its designation
    column is not empty. *)
Definition kept (row : list string) : Prop := row !! 3 ≠ Some "".

#[global] Instance kept_dec row : Decision (kept row).
Proof. unfold kept. apply _. Defined.

Section rows.
Context {RT : Runtime} {TX : Text}.

(** The number [float()] reads from a diameter field, or from the text
    [nan] when it reads none from the field. *)
Definition row_diameter (field : string) : option float :=
  match float_of_str field with
  | Some x => Some x
  | None => float_of_str "nan"
  end.

(** How a kept row of the NEO file and the NEO built from it relate. *)
Record neo_of_row (row : list string) (n : NearEarthObject.t) : Prop := {
  row_designation : row !! 3 = Some (NearEarthObject.designation n);
  row_name :
    ∃ field, row !! 4 = Some field
             ∧ NearEarthObject.name n
               = if decide (field = "") then None else Some field;
  row_diameter_km :
    ∃ field x, row !! 15 = Some field
               ∧ row_diameter field = Some x
               ∧ NearEarthObject.diameter n
                 = (if PrimFloat.is_nan x then PrimFloat.nan else x);
  row_hazardous :
    ∃ field, row !! 7 = Some field
             ∧ NearEarthObject.hazardous n
               = bool_decide (str_upper field = "Y");
  row_approaches : NearEarthObject.approaches n = [];
}.

(** How a row of the approach data and the approach built from it
    relate. *)
Record approach_of_row (row : list string) (a : CloseApproach.t) : Prop := {
  row_approach_designation :
    ∃ field, row !! 0 = Some field
             ∧ CloseApproach.designation a = str_strip field;
  row_time :
    ∃ field, row !! 3 = Some field
             ∧ cd_to_datetime field = Some (CloseApproach.time a);
  row_distance :
    ∃ field, row !! 4 = Some field
             ∧ float_of_str (str_strip field)
               = Some (CloseApproach.distance a);
  row_velocity :
    ∃ field, row !! 7 = Some field
             ∧ float_of_str (str_strip field)
               = Some (CloseApproach.velocity a);
  row_neo : CloseApproach.neo a = None;
}.

End rows.

Section output_rows.
Context {TX : Text}.

(** The flat CSV row and the nested JSON row of an approach and its
    NEO, with the items in the order [serialize] leaves them. *)
Definition csv_row (n : NearEarthObject.t) (a : CloseApproach.t)
    : list (string * jvalue) :=
  [("designation", JStr (NearEarthObject.designation n));
   ("name", JStr (default "" (NearEarthObject.name n)));
   ("diameter_km", JFloat (NearEarthObject.diameter n));
   ("potentially_hazardous",
    JStr (if NearEarthObject.hazardous n then "True" else "False"));
   ("datetime_utc", JStr (datetime_to_str (CloseApproach.time a)));
   ("distance_au", JFloat (CloseApproach.distance a));
   ("velocity_km_s", JFloat (CloseApproach.velocity a))].

Definition json_row (n : NearEarthObject.t) (a : CloseApproach.t)
    : list (string * jvalue) :=
  [("datetime_utc", JStr (datetime_to_str (CloseApproach.time a)));
   ("distance_au", JFloat (CloseApproach.distance a));
   ("velocity_km_s", JFloat (CloseApproach.velocity a));
   ("neo",
    JDict
      [("designation", JStr (NearEarthObject.designation n));
       ("name", JStr (default "" (NearEarthObject.name n)));
       ("diameter_km", JFloat (NearEarthObject.diameter n));
       ("potentially_hazardous", JBool (NearEarthObject.hazardous n))])].

(** [row] is what [make] gives for approach [app] and the NEO it is
    linked to. *)
Definition row_of (h : heap)
    (make : NearEarthObject.t → CloseApproach.t → list (string * jvalue))
    (app : ref) (row : list (string * jvalue)) : Prop :=
  ∃ neo, CloseApproach.neo (approach_at h app) = Some neo
         ∧ row = make (neo_at h neo) (approach_at h app).

End output_rows.

(** ** A runtime and a store for closed examples *)

Definition ascii_lower (c : ascii) : ascii :=
  let n := nat_of_ascii c in
  if (65 <=? n)%nat && (n <=? 90)%nat then ascii_of_nat (n + 32) else c.

Fixpoint lower_ascii (s : string) : string :=
  match s with
  | EmptyString => EmptyString
  | String c rest => String (ascii_lower c) (lower_ascii rest)
  end.

(** [str.lower] on ASCII text; of the float literals only [nan], and of the
    calendar literals only the one the examples use, are read. *)
Definition example_runtime : Runtime := {|
  str_lower := lower_ascii;
  float_of_str s :=
    if String.eqb (lower_ascii s) "nan" then Some PrimFloat.nan else None;
  cd_to_datetime s :=
    if String.eqb s "2020-Jan-01 00:00"
    then Some (Datetime (Date 2020 1 1) 0 0) else None;
|}.

(** A 64-bit platform. *)
Definition example_platform : Platform := {| maxsize := 2 ^ 63 - 1 |}.

Definition eros : NearEarthObject.t :=
  NearEarthObject.mk "2000433" (Some "Eros") 16.84%float false [].

Definition apophis : NearEarthObject.t :=
  NearEarthObject.mk "99942" (Some "Apophis") 0.34%float true [].

(** A second object whose designation differs from that of [unnamed_lower]
    by case only. *)
Definition unnamed_upper : NearEarthObject.t :=
  NearEarthObject.mk "2020 AB" None PrimFloat.nan false [].

Definition unnamed_lower : NearEarthObject.t :=
  NearEarthObject.mk "2020 ab" None PrimFloat.nan false [].

Definition eros_2020 : CloseApproach.t :=
  CloseApproach.mk "2000433" (Datetime (Date 2020 1 1) 0 0)
    0.15%float 5.2%float None.

Definition apophis_2029 : CloseApproach.t :=
  CloseApproach.mk "99942" (Datetime (Date 2029 4 13) 21 46)
    0.25%float 7.42%float None.

Definition unnamed_2021 : CloseApproach.t :=
  CloseApproach.mk "2020 AB" (Datetime (Date 2021 6 30) 12 0)
    0.05%float 11.5%float None.

(** NEOs 0..3 and approaches 0..2; any other reference denotes a copy of
    the first object of its class. *)
Definition example_heap : heap :=
  Heap (λ r, match r with
             | 1 => apophis
             | 2 => unnamed_upper
             | 3 => unnamed_lower
             | _ => eros
             end)
       (λ a, match a with
             | 1 => apophis_2029
             | 2 => unnamed_2021
             | _ => eros_2020
             end).

(** The database built over NEOs 0, 1, 2 and approaches 0, 1, 2, and the
    store its construction leaves. *)
Definition example_construction : result (NEODatabase.t * heap) :=
  NEODatabase.__init__ (RT := example_runtime) example_heap [0; 1; 2] [0; 1; 2].

Definition example_db : NEODatabase.t :=
  match example_construction with
  | Ok (db, _) => db
  | Raise _ => NEODatabase.mk [] [] ∅ ∅
  end.

Definition example_linked_heap : heap :=
  match example_construction with
  | Ok (_, h) => h
  | Raise _ => example_heap
  end.

(** The filters of [create_filters(distance_min=0.1, distance_max=0.2)]. *)
Definition example_filters : list AttributeFilter.t :=
  [AttributeFilter.mk DistanceFilter op_ge (PyFloat 0.1%float);
   AttributeFilter.mk DistanceFilter op_le (PyFloat 0.2%float)].

(** A text runtime for closed examples: [str.upper] on ASCII text,
    [str.strip] for blanks that are spaces, one time format, and the sets
    iterated in the order of their elements. *)
Definition ascii_upper (c : ascii) : ascii :=
  let n := nat_of_ascii c in
  if (97 <=? n)%nat && (n <=? 122)%nat then ascii_of_nat (n - 32) else c.

Fixpoint upper_ascii (s : string) : string :=
  match s with
  | EmptyString => EmptyString
  | String c rest => String (ascii_upper c) (upper_ascii rest)
  end.

Fixpoint lstrip_spaces (s : string) : string :=
  match s with
  | String " " rest => lstrip_spaces rest
  | _ => s
  end.

Definition strip_spaces (s : string) : string :=
  String.rev (lstrip_spaces (String.rev (lstrip_spaces s))).

Definition example_text : Text := {|
  str_upper := upper_ascii;
  str_strip := strip_spaces;
  datetime_to_str dt :=
    if (year (date_ dt) =? 2020)%Z then "2020-01-01 00:00" else "";
  set_iter := elements;
|}.

(** A runtime whose [float()] reads the literals the example files hold. *)
Definition table_runtime : Runtime := {|
  str_lower := lower_ascii;
  float_of_str s :=
    if String.eqb (lower_ascii s) "nan" then Some PrimFloat.nan
    else if String.eqb s "16.84" then Some 16.84%float
    else if String.eqb s "0.15" then Some 0.15%float
    else if String.eqb s "5.2" then Some 5.2%float
    else if String.eqb s "0" then Some 0%float
    else None;
  cd_to_datetime s :=
    if String.eqb s "2020-Jan-01 00:00"
    then Some (Datetime (Date 2020 1 1) 0 0) else None;
|}.

(** A row of the NEO file: sixteen columns, of which the loader reads the
    designation (3), the name (4), the hazard flag (7) and the diameter
    (15). *)
Definition neo_row (designation name hazardous diameter : string)
    : list string :=
  ["a0001"; "2000001"; "1"; designation; name; "A"; "Y"; hazardous;
   ""; ""; ""; ""; ""; ""; ""; diameter].

Definition example_neo_rows : list (list string) :=
  [neo_row "pdes" "name" "pha" "diameter";
   neo_row "2000433" "Eros" "N" "16.84";
   neo_row "" "Nobody" "Y" "1";
   neo_row "2020 AB" "" "y" ""].

(** The same file with a diameter of zero in its last row. *)
Definition zero_diameter_rows : list (list string) :=
  [neo_row "pdes" "name" "pha" "diameter";
   neo_row "2000433" "Eros" "N" "16.84";
   neo_row "2020 AB" "" "y" "0"].

(** A row of the approach data: the loader reads the designation (0), the
    time (3), the distance (4) and the velocity (7). *)
Definition example_approach_rows : list (list string) :=
  [[" 2000433 "; "1"; "2458849.5"; "2020-Jan-01 00:00"; " 0.15"; "0.14";
    "0.16"; "5.2 "]].

(** * Properties *)

(** ** The result monad *)

Lemma is_Ok_Ok {A} (x : A) : is_Ok (Ok x).
Proof. by exists x. Qed.

Lemma not_is_Ok_Raise {A} (e : exn) : ¬ is_Ok (@Raise A e).
Proof. by intros [x ?]. Qed.

Lemma bind_Ok {A B} (m : result A) (k : A → result B) (y : B) :
  m ≫= k = Ok y ↔ ∃ x, m = Ok x ∧ k x = Ok y.
Proof.
  destruct m as [x|e]; simpl; split.
  - intros ?. by exists x.
  - by intros (? & [= <-] & ?).
  - done.
  - by intros (? & ? & ?).
Qed.

(** ** Writes to the store *)

Lemma same_attributes_refl h : same_attributes h h.
Proof. by split. Qed.

Lemma same_attributes_trans h1 h2 h3 :
  same_attributes h1 h2 → same_attributes h2 h3 → same_attributes h1 h3.
Proof.
  intros [] []. split; intros; etrans; eauto.
Qed.

Lemma set_neo_same h a n : same_attributes h (set_neo h a n).
Proof.
  split; intros x; simpl; try done;
    unfold insert, fn_insert; by case_decide; subst.
Qed.

Lemma append_approach_same h r a : same_attributes h (append_approach h r a).
Proof.
  split; intros x; simpl; try done;
    unfold insert, fn_insert; by case_decide; subst.
Qed.

Lemma set_neo_neo h a n b :
  CloseApproach.neo (approach_at (set_neo h a n) b)
  = if decide (a = b) then n else CloseApproach.neo (approach_at h b).
Proof. simpl. unfold insert, fn_insert. by case_decide. Qed.

Lemma set_neo_approaches h a n r :
  NearEarthObject.approaches (neo_at (set_neo h a n) r)
  = NearEarthObject.approaches (neo_at h r).
Proof. done. Qed.

Lemma append_approach_neo h r a b :
  CloseApproach.neo (approach_at (append_approach h r a) b)
  = CloseApproach.neo (approach_at h b).
Proof. done. Qed.

Lemma append_approach_approaches h r a r' :
  NearEarthObject.approaches (neo_at (append_approach h r a) r')
  = NearEarthObject.approaches (neo_at h r')
    ++ (if decide (r = r') then [a] else []).
Proof.
  simpl. unfold insert, fn_insert. case_decide; subst; simpl; [done|].
  by rewrite app_nil_r.
Qed.

Section database_facts.
Context {RT : Runtime}.

Lemma neo_key_same h h' r : same_attributes h h' → neo_key h' r = neo_key h r.
Proof. intros []. unfold neo_key. by f_equal. Qed.

Lemma approach_key_same h h' a :
  same_attributes h h' → approach_key h' a = approach_key h a.
Proof. intros []. unfold approach_key. by f_equal. Qed.

Lemma name_key_same h h' r : same_attributes h h' → name_key h' r = name_key h r.
Proof. intros []. unfold name_key. by f_equal. Qed.

(** *** The indices: the last NEO with a key wins *)

Lemma index_neos_designation h neos d n k :
  (NEODatabase.index_neos h neos d n).1 !! k
  = match last (filter (λ r, neo_key h r = k) neos) with
    | Some r => Some r
    | None => d !! k
    end.
Proof.
  revert d n. induction neos as [|r neos IH]; intros d n; [done|].
  cbn [NEODatabase.index_neos]. rewrite IH.
  destruct (decide (neo_key h r = k)) as [Hk|Hk].
  - rewrite filter_cons_True by done. rewrite last_cons.
    destruct (last _); [done|].
    unfold neo_key in Hk. rewrite <- Hk. by rewrite lookup_insert_eq.
  - rewrite filter_cons_False by done.
    destruct (last _); [done|].
    by rewrite lookup_insert_ne.
Qed.

Lemma index_neos_name h neos d n k :
  (NEODatabase.index_neos h neos d n).2 !! k
  = match last (filter (λ r, name_key h r = Some k) neos) with
    | Some r => Some r
    | None => n !! k
    end.
Proof.
  revert d n. induction neos as [|r neos IH]; intros d n; [done|].
  cbn [NEODatabase.index_neos]. rewrite IH.
  destruct (decide (name_key h r = Some k)) as [Hk|Hk].
  - rewrite filter_cons_True by done. rewrite last_cons.
    destruct (last _); [done|].
    unfold name_key in Hk.
    destruct (NearEarthObject.name (neo_at h r)) as [nm|]; [|done].
    injection Hk as <-. by rewrite lookup_insert_eq.
  - rewrite filter_cons_False by done.
    destruct (last _); [done|].
    unfold name_key in Hk.
    destruct (NearEarthObject.name (neo_at h r)) as [nm|]; [|done].
    rewrite lookup_insert_ne; [done|]. intros <-. by apply Hk.
Qed.

Lemma last_filter_Some {A} (P : A → Prop) `{!∀ x, Decision (P x)} l x :
  last (filter P l) = Some x → x ∈ l ∧ P x.
Proof.
  intros Hlast%last_Some_elem_of%list_elem_of_filter. tauto.
Qed.

Lemma last_filter_None {A} (P : A → Prop) `{!∀ x, Decision (P x)} l :
  last (filter P l) = None ↔ ∀ x, x ∈ l → ¬ P x.
Proof.
  rewrite last_None. split.
  - intros Hnil x Hx HP.
    assert (x ∈ filter P l) as Hin by (apply list_elem_of_filter; done).
    rewrite Hnil in Hin. by apply not_elem_of_nil in Hin.
  - intros Hall. destruct (filter P l) as [|y l'] eqn:E; [done|].
    assert (y ∈ filter P l) as [HP Hy]%list_elem_of_filter
      by (rewrite E; apply list_elem_of_here).
    by destruct (Hall y Hy).
Qed.

(** With designations unique up to case, the one NEO with a key is the
    last one. *)
Lemma last_filter_unique h neos r :
  unique_designations h neos → r ∈ neos →
  last (filter (λ r', neo_key h r' = neo_key h r) neos) = Some r.
Proof.
  intros Huniq Hr.
  destruct (last _) as [r'|] eqn:E.
  - apply last_filter_Some in E as [Hr' Hk]. f_equal. by apply Huniq.
  - rewrite last_filter_None in E. by destruct (E r Hr).
Qed.

End database_facts.

Section linking.
Context {RT : Runtime}.

(** *** The linking loop *)

(** One round of the loop writes the two links and nothing else. *)
Lemma link_step_same h app neo :
  same_attributes h (append_approach (set_neo h app (Some neo)) neo app).
Proof.
  eapply same_attributes_trans;
    [apply set_neo_same | apply append_approach_same].
Qed.

(** What a completed linking loop has written, stated against the store
    it started from. *)
Lemma link_approaches_Ok d2n approaches h h' :
  NEODatabase.link_approaches d2n approaches h = Ok h' →
  same_attributes h h'
  ∧ (∀ a, CloseApproach.neo (approach_at h' a)
          = if decide (a ∈ approaches) then d2n !! approach_key h a
            else CloseApproach.neo (approach_at h a))
  ∧ (∀ r, NearEarthObject.approaches (neo_at h' r)
          = NearEarthObject.approaches (neo_at h r)
            ++ filter (λ a, d2n !! approach_key h a = Some r) approaches).
Proof.
  revert h. induction approaches as [|a0 rest IH]; intros h;
    cbn [NEODatabase.link_approaches].
  - intros [= <-]. split; [apply same_attributes_refl|]. split.
    + intros a. case_decide as Hin; [|done]. by apply not_elem_of_nil in Hin.
    + intros r. by rewrite filter_nil, app_nil_r.
  - fold (approach_key h a0).
    destruct (d2n !! approach_key h a0) as [r0|] eqn:Hr0; [|done].
    intros Hlink. apply IH in Hlink as (Hsame & Hneo & Happ).
    set (h1 := set_neo h a0 (Some r0)) in *.
    set (h2 := append_approach h1 r0 a0) in *.
    assert (same_attributes h h2) as H02 by apply link_step_same.
    assert (∀ a, approach_key h2 a = approach_key h a) as Hkey
      by (intros; by apply approach_key_same).
    split; [by eapply same_attributes_trans|]. split.
    + intros a. rewrite Hneo, Hkey. subst h2 h1.
      rewrite append_approach_neo, set_neo_neo.
      destruct (decide (a0 = a)) as [->|Hne].
      * rewrite Hr0. rewrite (decide_True _ _ (list_elem_of_here a rest)).
        by case_decide.
      * case_decide as Hin.
        -- by rewrite decide_True by (by apply list_elem_of_further).
        -- rewrite decide_False; [done|].
           intros [->|?]%elem_of_cons; done.
    + intros r. rewrite Happ. subst h2 h1.
      rewrite append_approach_approaches, set_neo_approaches.
      rewrite <- app_assoc. f_equal.
      rewrite (list_filter_iff _ (λ a, d2n !! approach_key h a = Some r))
        by (intros a; by rewrite Hkey).
      destruct (decide (r0 = r)) as [->|Hne].
      * by rewrite filter_cons_True.
      * rewrite filter_cons_False; [done|]. rewrite Hr0. by intros [= ->].
Qed.

(** The loop fails exactly at the first approach whose key the index
    lacks, with that key. *)
Lemma link_approaches_Raise d2n approaches h e :
  NEODatabase.link_approaches d2n approaches h = Raise e →
  ∃ a, a ∈ approaches ∧ d2n !! approach_key h a = None
       ∧ e = KeyError (approach_key h a).
Proof.
  revert h. induction approaches as [|a0 rest IH]; intros h;
    cbn [NEODatabase.link_approaches]; [done|].
  fold (approach_key h a0).
  destruct (d2n !! approach_key h a0) as [r0|] eqn:Hr0.
  - intros (a & Ha & Hnone & ->)%IH.
    assert (approach_key (append_approach (set_neo h a0 (Some r0)) r0 a0) a
            = approach_key h a) as Hkey.
    { apply approach_key_same, link_step_same. }
    rewrite Hkey in *. exists a. split; [by apply list_elem_of_further|done].
  - intros [= <-]. exists a0. split; [apply list_elem_of_here|done].
Qed.

Lemma link_approaches_is_Ok d2n approaches h :
  is_Ok (NEODatabase.link_approaches d2n approaches h)
  ↔ ∀ a, a ∈ approaches → is_Some (d2n !! approach_key h a).
Proof.
  split.
  - revert h. induction approaches as [|a0 rest IH]; intros h;
    cbn [NEODatabase.link_approaches].
    + intros _ a Ha. by apply not_elem_of_nil in Ha.
    + fold (approach_key h a0).
      destruct (d2n !! approach_key h a0) as [r0|] eqn:Hr0;
        [|by intros ?%not_is_Ok_Raise].
      intros Hok a [->|Ha]%elem_of_cons; [by rewrite Hr0|].
      specialize (IH _ Hok a Ha).
      erewrite approach_key_same in IH; [done|]. apply link_step_same.
  - intros Hall.
    destruct (NEODatabase.link_approaches d2n approaches h) as [h'|e] eqn:E;
      [apply is_Ok_Ok|].
    apply link_approaches_Raise in E as (a & Ha & Hnone & _).
    destruct (Hall a Ha) as [r Hr]. congruence.
Qed.

(** *** The constructor *)

Lemma init_Ok h neos approaches db h' :
  NEODatabase.__init__ h neos approaches = Ok (db, h') →
  db = NEODatabase.mk neos approaches
         (NEODatabase.index_neos h neos ∅ ∅).1
         (NEODatabase.index_neos h neos ∅ ∅).2
  ∧ NEODatabase.link_approaches
      (NEODatabase.index_neos h neos ∅ ∅).1 approaches h = Ok h'.
Proof.
  unfold NEODatabase.__init__.
  destruct (NEODatabase.index_neos h neos ∅ ∅) as [d2n n2n]. simpl.
  destruct (NEODatabase.link_approaches d2n approaches h); simpl; [|done].
  by intros [= <- <-].
Qed.

Lemma init_is_Ok h neos approaches :
  is_Ok (NEODatabase.__init__ h neos approaches)
  ↔ is_Ok (NEODatabase.link_approaches
             (NEODatabase.index_neos h neos ∅ ∅).1 approaches h).
Proof.
  unfold NEODatabase.__init__.
  destruct (NEODatabase.index_neos h neos ∅ ∅) as [d2n n2n]. simpl.
  destruct (NEODatabase.link_approaches d2n approaches h); simpl.
  - split; intros _; apply is_Ok_Ok.
  - split; by intros ?%not_is_Ok_Raise.
Qed.

(** The index has a key exactly when some NEO of the collection has it. *)
Lemma designation_index_Some h neos k r :
  (NEODatabase.index_neos h neos ∅ ∅).1 !! k = Some r →
  r ∈ neos ∧ neo_key h r = k.
Proof.
  rewrite index_neos_designation.
  destruct (last _) eqn:E; [|by rewrite lookup_empty].
  intros [= <-]. by apply last_filter_Some in E.
Qed.

Lemma designation_index_is_Some h neos k :
  is_Some ((NEODatabase.index_neos h neos ∅ ∅).1 !! k)
  ↔ ∃ r, r ∈ neos ∧ neo_key h r = k.
Proof.
  split.
  - intros [r Hr]. exists r. by apply designation_index_Some.
  - intros (r & Hr & Hk). rewrite index_neos_designation.
    destruct (last _) eqn:E; [done|].
    rewrite last_filter_None in E. by destruct (E r Hr).
Qed.

End linking.

Section database_claims.
Context {RT : Runtime}.

Lemma init_Raise h neos approaches e :
  NEODatabase.__init__ h neos approaches = Raise e ↔
  NEODatabase.link_approaches
    (NEODatabase.index_neos h neos ∅ ∅).1 approaches h = Raise e.
Proof.
  unfold NEODatabase.__init__.
  destruct (NEODatabase.index_neos h neos ∅ ∅) as [d2n n2n]. simpl.
  destruct (NEODatabase.link_approaches d2n approaches h); simpl.
  - split; intros [=].
  - split; by intros [= ->].
Qed.

Lemma query_no_filters db h :
  NEODatabase.query db [] h = Generator (NEODatabase._approaches db) None.
Proof.
  unfold NEODatabase.query.
  induction (NEODatabase._approaches db) as [|a l IH]; [done|].
  simpl. by rewrite IH.
Qed.

(** C1 (as amended): when every approach's designation matches some NEO up
    to case, construction succeeds; afterwards every approach [query(())]
    yields refers to a NEO whose designation equals its own up to case;
    and, provided no two distinct NEOs share a designation up to case, the
    [approaches] of every NEO of the collection are those it had before
    (none, fresh from its constructor) followed by exactly the input
    approaches whose designation matches its own up to case, in the order
    of the input collection. *)
Theorem C1_links_after_construction h neos approaches :
  (∀ a, a ∈ approaches → ∃ r, r ∈ neos ∧ neo_key h r = approach_key h a) →
  ∃ db h',
    NEODatabase.__init__ h neos approaches = Ok (db, h')
    ∧ (∀ a, a ∈ yielded (NEODatabase.query db [] h') →
         ∃ r, CloseApproach.neo (approach_at h' a) = Some r
              ∧ neo_key h' r = approach_key h' a)
    ∧ (unique_designations h neos →
       ∀ r, r ∈ neos →
         NearEarthObject.approaches (neo_at h' r)
         = NearEarthObject.approaches (neo_at h r)
           ++ filter (λ a, approach_key h' a = neo_key h' r) approaches).
Proof.
  intros Hmatch.
  assert (is_Ok (NEODatabase.__init__ h neos approaches)) as [[db h'] Hinit].
  { apply init_is_Ok, link_approaches_is_Ok. intros a Ha.
    apply designation_index_is_Some. destruct (Hmatch a Ha) as (r & ? & ?).
    by exists r. }
  exists db, h'. split; [done|].
  destruct (init_Ok _ _ _ _ _ Hinit) as [-> Hlink].
  destruct (link_approaches_Ok _ _ _ _ Hlink) as (Hsame & Hneo & Happ).
  split.
  - rewrite query_no_filters. simpl. intros a Ha.
    rewrite Hneo, decide_True by done.
    destruct (Hmatch a Ha) as (r0 & Hr0 & Hk0).
    assert (is_Some ((NEODatabase.index_neos h neos ∅ ∅).1 !! approach_key h a))
      as [r Hr] by (apply designation_index_is_Some; by exists r0).
    exists r. split; [done|].
    apply designation_index_Some in Hr as [_ Hk].
    by rewrite (neo_key_same h h'), (approach_key_same h h').
  - intros Huniq r Hr. rewrite Happ. f_equal.
    apply list_filter_iff. intros a.
    rewrite (neo_key_same h h'), (approach_key_same h h') by done.
    rewrite index_neos_designation. split.
    + destruct (last _) eqn:E; [|by rewrite lookup_empty].
      intros [= ->]. by apply last_filter_Some in E as [_ ?].
    + intros ->. by rewrite last_filter_unique.
Qed.

(** C3: construction raises a lookup error exactly when some approach's
    lowercased designation is not a key of the designation index, and it
    completes exactly when every approach's designation matches some NEO up
    to case. *)
Theorem C3_construction_lookup_error h neos approaches :
  ((∃ a, a ∈ approaches
         ∧ (NEODatabase.index_neos h neos ∅ ∅).1 !! approach_key h a = None)
   ↔ ∃ k, NEODatabase.__init__ h neos approaches = Raise (KeyError k))
  ∧ ((∀ a, a ∈ approaches → ∃ r, r ∈ neos ∧ neo_key h r = approach_key h a)
     ↔ is_Ok (NEODatabase.__init__ h neos approaches)).
Proof.
  split; split.
  - intros (a & Ha & Hnone).
    destruct (NEODatabase.__init__ h neos approaches) as [x|e] eqn:E.
    + assert (is_Ok (NEODatabase.__init__ h neos approaches)) as Hok
        by (rewrite E; apply is_Ok_Ok).
      apply init_is_Ok in Hok.
      rewrite link_approaches_is_Ok in Hok.
      destruct (Hok a Ha) as [r Hr]. congruence.
    + apply init_Raise, link_approaches_Raise in E as (a' & _ & _ & ->).
      by eexists.
  - intros [k (a & Ha & Hnone & _)%init_Raise%link_approaches_Raise].
    by exists a.
  - intros Hmatch. apply init_is_Ok, link_approaches_is_Ok. intros a Ha.
    by apply designation_index_is_Some, Hmatch.
  - intros Hok%init_is_Ok a Ha. rewrite link_approaches_is_Ok in Hok.
    by apply designation_index_is_Some, Hok.
Qed.

(** C5: on a constructed database, both lookups lowercase their argument
    and return the reference the index holds under that key: the last NEO
    of the collection whose designation (name) equals the argument up to
    case, or [None] when there is none.  They return an option and raise
    nothing. *)
Theorem C5_lookup_by_key h neos approaches db h' :
  NEODatabase.__init__ h neos approaches = Ok (db, h') →
  (∀ d, NEODatabase.get_neo_by_designation db d
        = NEODatabase._designation_to_neo db !! str_lower d
        ∧ NEODatabase.get_neo_by_designation db d
          = last (filter (λ r, neo_key h' r = str_lower d) neos)
        ∧ (∀ r, NEODatabase.get_neo_by_designation db d = Some r →
                r ∈ neos ∧ neo_key h' r = str_lower d)
        ∧ (NEODatabase.get_neo_by_designation db d = None ↔
           ∀ r, r ∈ neos → neo_key h' r ≠ str_lower d)
        ∧ (∀ d', str_lower d' = str_lower d →
                 NEODatabase.get_neo_by_designation db d'
                 = NEODatabase.get_neo_by_designation db d))
  ∧ (∀ n, NEODatabase.get_neo_by_name db n
          = NEODatabase._name_to_neo db !! str_lower n
          ∧ NEODatabase.get_neo_by_name db n
            = last (filter (λ r, name_key h' r = Some (str_lower n)) neos)
          ∧ (∀ r, NEODatabase.get_neo_by_name db n = Some r →
                  r ∈ neos ∧ name_key h' r = Some (str_lower n))
          ∧ (NEODatabase.get_neo_by_name db n = None ↔
             ∀ r, r ∈ neos → name_key h' r ≠ Some (str_lower n))
          ∧ (∀ n', str_lower n' = str_lower n →
                   NEODatabase.get_neo_by_name db n'
                   = NEODatabase.get_neo_by_name db n)).
Proof.
  intros Hinit. destruct (init_Ok _ _ _ _ _ Hinit) as [-> Hlink].
  destruct (link_approaches_Ok _ _ _ _ Hlink) as (Hsame & _ & _).
  assert (∀ m k, match m !! k with None => None | Some _ => m !! k end
                 = (m : gmap string ref) !! (k : string)) as Hget
    by (intros m k; by destruct (m !! k)).
  split.
  - intros d.
    assert (NEODatabase.get_neo_by_designation
              (NEODatabase.mk neos approaches
                 (NEODatabase.index_neos h neos ∅ ∅).1
                 (NEODatabase.index_neos h neos ∅ ∅).2) d
            = last (filter (λ r, neo_key h' r = str_lower d) neos)) as Hlast.
    { unfold NEODatabase.get_neo_by_designation. simpl. rewrite Hget.
      rewrite index_neos_designation.
      rewrite (list_filter_iff _ (λ r, neo_key h' r = str_lower d))
        by (intros r; by rewrite (neo_key_same h h')).
      destruct (last _); [done|apply lookup_empty]. }
    split; [apply Hget|]. split; [done|]. rewrite Hlast. split; [|split].
    + intros r Hr. by apply last_filter_Some in Hr.
    + apply last_filter_None.
    + intros d' Hd'. unfold NEODatabase.get_neo_by_designation in *.
      by rewrite Hd'.
  - intros n.
    assert (NEODatabase.get_neo_by_name
              (NEODatabase.mk neos approaches
                 (NEODatabase.index_neos h neos ∅ ∅).1
                 (NEODatabase.index_neos h neos ∅ ∅).2) n
            = last (filter (λ r, name_key h' r = Some (str_lower n)) neos))
      as Hlast.
    { unfold NEODatabase.get_neo_by_name. simpl. rewrite Hget.
      rewrite index_neos_name.
      rewrite (list_filter_iff _ (λ r, name_key h' r = Some (str_lower n)))
        by (intros r; by rewrite (name_key_same h h')).
      destruct (last _); [done|apply lookup_empty]. }
    split; [apply Hget|]. split; [done|]. rewrite Hlast. split; [|split].
    + intros r Hr. by apply last_filter_Some in Hr.
    + apply last_filter_None.
    + intros n' Hn'. unfold NEODatabase.get_neo_by_name in *.
      by rewrite Hn'.
Qed.

End database_claims.

(** ** Querying *)

Lemma semaphor_predicates filters h a :
  (∀ f : callable, f ∈ filters → is_Ok (f h a)) →
  NEODatabase.semaphor filters h a
  = Ok (bool_decide (Forall (λ f : callable, f h a = Ok true) filters)).
Proof.
  induction filters as [|f fs IH]; intros Hok.
  - done.
  - cbn [NEODatabase.semaphor].
    destruct (Hok f (list_elem_of_here f fs)) as [b Hb]. rewrite Hb. simpl.
    destruct b; simpl.
    + rewrite IH by (intros g Hg; by apply Hok, list_elem_of_further).
      f_equal. apply bool_decide_ext. rewrite Forall_cons. tauto.
    + f_equal. symmetry. apply bool_decide_eq_false_2.
      rewrite Forall_cons. intros [? _]. congruence.
Qed.

Lemma query_from_predicates approaches filters h :
  (∀ f, f ∈ filters → predicate_on h approaches f) →
  NEODatabase.query_from approaches filters h
  = Generator
      (filter (λ a, Forall (λ f : callable, f h a = Ok true) filters) approaches)
      None.
Proof.
  induction approaches as [|a l IH]; intros Hok; [done|].
  cbn [NEODatabase.query_from].
  rewrite semaphor_predicates
    by (intros f Hf; by apply (Hok f Hf), list_elem_of_here).
  rewrite IH
    by (intros f Hf b Hb; by apply (Hok f Hf), list_elem_of_further).
  case_bool_decide as HP; simpl.
  - by rewrite filter_cons_True.
  - by rewrite filter_cons_False.
Qed.

(** C2: for filters that are predicates on the approaches of the database,
    [query] yields, in the order of the collection and without raising,
    exactly the approaches on which every filter returns true; with no
    filter it yields the whole collection; and reordering the filters
    changes nothing. *)
Theorem C2_query_is_conjunction db h filters :
  (∀ f, f ∈ filters → predicate_on h (NEODatabase._approaches db) f) →
  NEODatabase.query db filters h
  = Generator
      (filter (λ a, Forall (λ f : callable, f h a = Ok true) filters)
         (NEODatabase._approaches db))
      None
  ∧ NEODatabase.query db [] h = Generator (NEODatabase._approaches db) None
  ∧ (∀ filters', filters ≡ₚ filters' →
       NEODatabase.query db filters' h = NEODatabase.query db filters h).
Proof.
  intros Hok. split; [by apply query_from_predicates|].
  split; [apply query_no_filters|].
  intros filters' Hperm. unfold NEODatabase.query.
  rewrite !query_from_predicates; try done.
  - f_equal. apply list_filter_iff. intros a. by rewrite Hperm.
  - intros f Hf. apply Hok. by rewrite Hperm.
Qed.

(** ** Filters *)

Lemma apply_op_comparable c o x v :
  comparable (AttributeFilter.mk c o v) = true →
  match c with
  | AttributeFilter_ => False
  | DateFilter => ∃ d, x = PyDate d
  | _ => is_Some (as_number x)
  end →
  is_Ok (apply_op o x v).
Proof.
  unfold comparable. simpl. intros Hcmp Hx.
  destruct o; [apply is_Ok_Ok| |];
    destruct c; try done;
    try (destruct Hx as [d ->]; destruct v; try done; apply is_Ok_Ok);
    destruct Hx as [y Hy]; destruct v; try done;
    unfold apply_op, py_le; rewrite Hy; apply is_Ok_Ok.
Qed.

Lemma call_linked_is_Ok h a r c o v :
  CloseApproach.neo (approach_at h a) = Some r →
  c ≠ AttributeFilter_ →
  comparable (AttributeFilter.mk c o v) = true →
  is_Ok (AttributeFilter.__call__ (AttributeFilter.mk c o v) h a).
Proof.
  intros Hneo Hc Hcmp.
  unfold AttributeFilter.__call__, AttributeFilter.get. simpl.
  rewrite Hneo.
  destruct c; try done; simpl;
    (eapply apply_op_comparable; [exact Hcmp|]); simpl; eauto.
Qed.

(** C9: calling the base class fails with [UnsupportedCriterionError] on
    every approach, linked or not, and none of the five subclasses ever
    raises that error; each of the five returns [op] applied to its
    attribute and the reference value, the date, distance and velocity
    filters on every approach and the diameter and hazardous filters on an
    approach linked to its NEO; on a linked approach each returns a boolean
    whenever the reference value compares with the attribute. *)
Theorem C9_filter_call h a :
  (∀ o v,
     AttributeFilter.__call__ (AttributeFilter.mk AttributeFilter_ o v) h a
     = Raise UnsupportedCriterionError
     ∧ AttributeFilter.__call__ (AttributeFilter.mk DateFilter o v) h a
       = apply_op o (PyDate (date_ (CloseApproach.time (approach_at h a)))) v
     ∧ AttributeFilter.__call__ (AttributeFilter.mk DistanceFilter o v) h a
       = apply_op o (PyFloat (CloseApproach.distance (approach_at h a))) v
     ∧ AttributeFilter.__call__ (AttributeFilter.mk VelocityFilter o v) h a
       = apply_op o (PyFloat (CloseApproach.velocity (approach_at h a))) v
     ∧ (∀ c, c ≠ AttributeFilter_ →
          AttributeFilter.__call__ (AttributeFilter.mk c o v) h a
          ≠ Raise UnsupportedCriterionError))
  ∧ ∀ r,
      CloseApproach.neo (approach_at h a) = Some r →
      ∀ o v,
        AttributeFilter.__call__ (AttributeFilter.mk DiameterFilter o v) h a
        = apply_op o (PyFloat (NearEarthObject.diameter (neo_at h r))) v
        ∧ AttributeFilter.__call__ (AttributeFilter.mk HazardousFilter o v) h a
          = apply_op o (PyBool (NearEarthObject.hazardous (neo_at h r))) v
        ∧ (∀ c, c ≠ AttributeFilter_ →
             comparable (AttributeFilter.mk c o v) = true →
             is_Ok (AttributeFilter.__call__ (AttributeFilter.mk c o v) h a)).
Proof.
  split.
  - intros o v. do 4 (split; [done|]). intros c Hc.
    unfold AttributeFilter.__call__, AttributeFilter.get. simpl.
    destruct c; try done; simpl;
      try destruct (CloseApproach.neo (approach_at h a)); simpl; try done;
      destruct o; simpl; try done;
      unfold py_le; simpl; repeat case_match; done.
  - intros r Hneo o v.
    unfold AttributeFilter.__call__, AttributeFilter.get. simpl.
    rewrite Hneo. simpl. do 2 (split; [done|]).
    intros c Hc Hcmp.
    pose proof (call_linked_is_Ok h a r c o v Hneo Hc Hcmp) as Hok.
    unfold AttributeFilter.__call__, AttributeFilter.get in Hok.
    simpl in Hok. by rewrite Hneo in Hok.
Qed.

(** C10: on an approach whose [neo] is still [None], the diameter and the
    hazardous filters fail with an attribute error; the date, distance and
    velocity filters compare an attribute of the approach itself, so their
    result is the same in every store that agrees on that approach's time,
    distance and velocity, and is a boolean whenever the reference value
    compares with the attribute. *)
Theorem C10_unlinked_approach h a :
  CloseApproach.neo (approach_at h a) = None →
  ∀ o v,
    AttributeFilter.__call__ (AttributeFilter.mk DiameterFilter o v) h a
    = Raise AttributeError
    ∧ AttributeFilter.__call__ (AttributeFilter.mk HazardousFilter o v) h a
      = Raise AttributeError
    ∧ AttributeFilter.__call__ (AttributeFilter.mk DateFilter o v) h a
      = apply_op o (PyDate (date_ (CloseApproach.time (approach_at h a)))) v
    ∧ AttributeFilter.__call__ (AttributeFilter.mk DistanceFilter o v) h a
      = apply_op o (PyFloat (CloseApproach.distance (approach_at h a))) v
    ∧ AttributeFilter.__call__ (AttributeFilter.mk VelocityFilter o v) h a
      = apply_op o (PyFloat (CloseApproach.velocity (approach_at h a))) v
    ∧ (∀ c, c ∈ [DateFilter; DistanceFilter; VelocityFilter] →
         (∀ h2,
            CloseApproach.time (approach_at h2 a)
            = CloseApproach.time (approach_at h a) →
            CloseApproach.distance (approach_at h2 a)
            = CloseApproach.distance (approach_at h a) →
            CloseApproach.velocity (approach_at h2 a)
            = CloseApproach.velocity (approach_at h a) →
            AttributeFilter.__call__ (AttributeFilter.mk c o v) h2 a
            = AttributeFilter.__call__ (AttributeFilter.mk c o v) h a)
         ∧ (comparable (AttributeFilter.mk c o v) = true →
            is_Ok (AttributeFilter.__call__ (AttributeFilter.mk c o v) h a))).
Proof.
  intros Hneo o v.
  unfold AttributeFilter.__call__, AttributeFilter.get. simpl.
  rewrite Hneo. simpl. do 5 (split; [done|]).
  intros c Hc.
  assert (c = DateFilter ∨ c = DistanceFilter ∨ c = VelocityFilter)
    as Hcases by (rewrite !elem_of_cons, elem_of_nil in Hc; tauto).
  split.
  - intros h2 Ht Hd Hv.
    destruct Hcases as [-> | [-> | ->]]; simpl; congruence.
  - intros Hcmp.
    destruct Hcases as [-> | [-> | ->]]; simpl;
      (eapply apply_op_comparable; [exact Hcmp|]); simpl; eauto.
Qed.

Section factory_facts.
Context {RT : Runtime}.

Lemma append_if_supplied_date fs c o d :
  append_if_supplied fs c o as_is (of_date d)
  = Ok (fs ++ predicate_for c o PyDate d).
Proof. destruct d; simpl; [done|]. by rewrite app_nil_r. Qed.

Lemma append_if_supplied_float fs c o x :
  append_if_supplied fs c o to_float (of_float x)
  = Ok (fs ++ predicate_for c o PyFloat x).
Proof. destruct x; simpl; [done|]. by rewrite app_nil_r. Qed.

Lemma append_if_supplied_bool fs c o b :
  append_if_supplied fs c o to_bool (of_bool b)
  = Ok (fs ++ predicate_for c o PyBool b).
Proof. destruct b; simpl; [done|]. by rewrite app_nil_r. Qed.

Lemma length_predicate_for {A} c o (inj : A → pyval) x :
  length (predicate_for c o inj x) = supplied x.
Proof. by destruct x. Qed.

Lemma append_if_supplied_given fs c o v :
  append_if_supplied fs c o as_is v = Ok (fs ++ predicate_as_given c o v).
Proof.
  unfold append_if_supplied, predicate_as_given.
  destruct (is_not_None v); simpl; [done|]. by rewrite app_nil_r.
Qed.

Lemma append_if_supplied_flag fs v :
  append_if_supplied fs HazardousFilter op_eq to_bool v
  = Ok (fs ++ predicate_for_flag v).
Proof.
  unfold append_if_supplied, predicate_for_flag.
  destruct (is_not_None v); simpl; [done|]. by rewrite app_nil_r.
Qed.

Lemma append_if_supplied_bound fs c o v :
  append_if_supplied fs c o to_float v
  = float_bound v ≫= λ x, Ok (fs ++ predicate_for c o PyFloat x).
Proof.
  unfold append_if_supplied, float_bound, to_float.
  destruct (is_not_None v); simpl; [|by rewrite app_nil_r].
  by destruct (py_float v).
Qed.

Lemma float_bound_supplied v x : float_bound v = Ok x → supplied x = given v.
Proof.
  unfold float_bound, given. destruct (is_not_None v); [|by intros [= <-]].
  destruct (py_float v); simpl; [by intros [= <-]|done].
Qed.

Lemma length_predicate_as_given c o v :
  length (predicate_as_given c o v) = given v.
Proof. unfold predicate_as_given, given. by destruct (is_not_None v). Qed.

Lemma length_predicate_for_flag v : length (predicate_for_flag v) = given v.
Proof. unfold predicate_for_flag, given. by destruct (is_not_None v). Qed.

Lemma create_filters_values
    (date start_date end_date distance_min distance_max
     velocity_min velocity_max diameter_min diameter_max hazardous : pyval) :
  create_filters date start_date end_date distance_min distance_max
    velocity_min velocity_max diameter_min diameter_max hazardous
  = (dmin ← float_bound distance_min;
     dmax ← float_bound distance_max;
     vmin ← float_bound velocity_min;
     vmax ← float_bound velocity_max;
     diamin ← float_bound diameter_min;
     diamax ← float_bound diameter_max;
     Ok (predicates_for_values date start_date end_date
           dmin dmax vmin vmax diamin diamax hazardous)).
Proof.
  unfold create_filters.
  repeat (rewrite append_if_supplied_given; cbn [mbind result_bind]).
  repeat (rewrite append_if_supplied_bound;
          match goal with
          | |- context [float_bound ?v] =>
              destruct (float_bound v); cbn [mbind result_bind]; [|done]
          end).
  rewrite append_if_supplied_flag. cbn [mbind result_bind].
  unfold predicates_for_values. by rewrite <- !app_assoc.
Qed.

(** C4: whatever values the criteria are, the factory returns, for each
    supplied criterion and for no other, one predicate of the class and
    operator the specification lists, in the specified order: a date
    criterion with the value as given, a bound with what [float()] makes of
    the value (and the factory fails where [float()] does), the hazard flag
    with the truth value of what is given; so the list has as many
    predicates as there are supplied criteria.  On typed criteria the
    values are the criteria themselves. *)
Theorem C4_create_filters :
  (∀ date start_date end_date distance_min distance_max
     velocity_min velocity_max diameter_min diameter_max hazardous : pyval,
     create_filters date start_date end_date distance_min distance_max
       velocity_min velocity_max diameter_min diameter_max hazardous
     = (dmin ← float_bound distance_min;
        dmax ← float_bound distance_max;
        vmin ← float_bound velocity_min;
        vmax ← float_bound velocity_max;
        diamin ← float_bound diameter_min;
        diamax ← float_bound diameter_max;
        Ok (predicates_for_values date start_date end_date
              dmin dmax vmin vmax diamin diamax hazardous))
     ∧ ∀ filters,
         create_filters date start_date end_date distance_min distance_max
           velocity_min velocity_max diameter_min diameter_max hazardous
         = Ok filters →
         length filters
         = given date + given start_date + given end_date
           + given distance_min + given distance_max
           + given velocity_min + given velocity_max
           + given diameter_min + given diameter_max
           + given hazardous)
  ∧ (∀ (start_date end_date date : option date)
       (distance_min distance_max velocity_min velocity_max
        diameter_min diameter_max : option float)
       (hazardous : option bool),
       create_filters (of_date date) (of_date start_date) (of_date end_date)
         (of_float distance_min) (of_float distance_max)
         (of_float velocity_min) (of_float velocity_max)
         (of_float diameter_min) (of_float diameter_max)
         (of_bool hazardous)
       = Ok (predicates_for_criteria date start_date end_date
               distance_min distance_max velocity_min velocity_max
               diameter_min diameter_max hazardous)
       ∧ length (predicates_for_criteria date start_date end_date
                   distance_min distance_max velocity_min velocity_max
                   diameter_min diameter_max hazardous)
         = supplied date + supplied start_date + supplied end_date
           + supplied distance_min + supplied distance_max
           + supplied velocity_min + supplied velocity_max
           + supplied diameter_min + supplied diameter_max
           + supplied hazardous).
Proof.
  split.
  - intros. split; [apply create_filters_values|].
    intros filters. rewrite create_filters_values.
    destruct (float_bound distance_min) as [dmin|] eqn:H1; simpl; [|done].
    destruct (float_bound distance_max) as [dmax|] eqn:H2; simpl; [|done].
    destruct (float_bound velocity_min) as [vmin|] eqn:H3; simpl; [|done].
    destruct (float_bound velocity_max) as [vmax|] eqn:H4; simpl; [|done].
    destruct (float_bound diameter_min) as [diamin|] eqn:H5; simpl; [|done].
    destruct (float_bound diameter_max) as [diamax|] eqn:H6; simpl; [|done].
    intros [= <-]. unfold predicates_for_values.
    rewrite !length_app, !length_predicate_as_given, !length_predicate_for,
      length_predicate_for_flag.
    apply float_bound_supplied in H1, H2, H3, H4, H5, H6. lia.
  - intros. split.
    + unfold create_filters, predicates_for_criteria.
      repeat (first [ rewrite append_if_supplied_date
                    | rewrite append_if_supplied_float
                    | rewrite append_if_supplied_bool ];
              cbn [mbind result_bind]).
      by rewrite <- !app_assoc.
    + unfold predicates_for_criteria.
      rewrite !length_app, !length_predicate_for. lia.
Qed.

End factory_facts.

(** ** Filters on a constructed database *)

Section constructed_database.
Context {RT : Runtime}.

(** Construction leaves every approach of the collection linked. *)
Lemma constructed_linked h neos approaches db h' a :
  NEODatabase.__init__ h neos approaches = Ok (db, h') →
  a ∈ approaches →
  is_Some (CloseApproach.neo (approach_at h' a)).
Proof.
  intros Hinit Ha. destruct (init_Ok _ _ _ _ _ Hinit) as [-> Hlink].
  destruct (link_approaches_Ok _ _ _ _ Hlink) as (_ & Hneo & _).
  rewrite Hneo, decide_True by done.
  assert (is_Ok (NEODatabase.link_approaches
                   (NEODatabase.index_neos h neos ∅ ∅).1 approaches h)) as Hok
    by (rewrite Hlink; apply is_Ok_Ok).
  rewrite link_approaches_is_Ok in Hok. by apply Hok.
Qed.

(** So the filters the factory builds, and any filter of the five
    subclasses whose reference value compares with its attribute, are
    predicates on the approaches of a constructed database. *)
Lemma constructed_predicates h neos approaches db h' (fs : list AttributeFilter.t) :
  NEODatabase.__init__ h neos approaches = Ok (db, h') →
  Forall (λ f, AttributeFilter.cls f ≠ AttributeFilter_ ∧ comparable f = true)
    fs →
  ∀ f, f ∈ AttributeFilter.__call__ <$> fs →
       predicate_on h' (NEODatabase._approaches db) f.
Proof.
  intros Hinit Hfs f (f0 & -> & Hf0)%list_elem_of_fmap a Ha.
  rewrite Forall_forall in Hfs. destruct (Hfs f0 Hf0) as [Hcls Hcmp].
  destruct (init_Ok _ _ _ _ _ Hinit) as [Hdb _].
  rewrite Hdb in Ha. simpl in Ha.
  destruct (constructed_linked _ _ _ _ _ a Hinit Ha) as [r Hr].
  destruct f0 as [c o v]. by eapply call_linked_is_Ok.
Qed.

Lemma query_constructed h neos approaches db h' (fs : list AttributeFilter.t) :
  NEODatabase.__init__ h neos approaches = Ok (db, h') →
  Forall (λ f, AttributeFilter.cls f ≠ AttributeFilter_ ∧ comparable f = true)
    fs →
  NEODatabase.query db (AttributeFilter.__call__ <$> fs) h'
  = Generator
      (filter (λ a, Forall (λ f, AttributeFilter.__call__ f h' a = Ok true) fs)
         approaches)
      None.
Proof.
  intros Hinit Hfs. unfold NEODatabase.query.
  rewrite query_from_predicates by by eapply constructed_predicates.
  destruct (init_Ok _ _ _ _ _ Hinit) as [-> _]. simpl. f_equal.
  apply list_filter_iff. intros a. by rewrite Forall_fmap.
Qed.

End constructed_database.

(** ** The limiter *)

Section limiter_facts.
Context {PF : Platform}.

(** C6 (as amended): a cap of 0 or [None] returns the whole sequence; a
    positive cap [k] not above [sys.maxsize] returns its first
    [min k (length seq)] items, in order; a cap above [sys.maxsize] is
    refused by [itertools.islice] with a [ValueError], and nothing is
    yielded. *)
Theorem C6_limit {A} (seq : list A) :
  limit (Generator seq None) (Some 0%Z) = Ok (Generator seq None)
  ∧ limit (Generator seq None) None = Ok (Generator seq None)
  ∧ (∀ k : positive,
       (Z.pos k ≤ maxsize)%Z →
       limit (Generator seq None) (Some (Z.pos k))
       = Ok (Generator (take (Pos.to_nat k) seq) None)
       ∧ length (take (Pos.to_nat k) seq) = Nat.min (Pos.to_nat k) (length seq)
       ∧ take (Pos.to_nat k) seq `prefix_of` seq)
  ∧ ∀ k : positive,
      (maxsize < Z.pos k)%Z →
      limit (Generator seq None) (Some (Z.pos k)) = Raise ValueError.
Proof.
  split; [done|]. split; [done|]. split.
  - intros k Hk. split; [|split].
    + unfold limit, islice. simpl.
      rewrite (proj2 (Z.ltb_ge maxsize (Z.pos k))) by done.
      simpl. by case_match.
    + apply length_take.
    + exists (drop (Pos.to_nat k) seq). by rewrite take_drop.
  - intros k Hk. unfold limit, islice. simpl.
    by rewrite (proj2 (Z.ltb_lt maxsize (Z.pos k))) by done.
Qed.

End limiter_facts.

(** ** The entity constructors *)

Section constructor_facts.
Context {RT : Runtime}.

Lemma hazardous_truth_value v :
  (if negb (py_bool v) then false else py_bool v) = py_bool v.
Proof. by destruct (py_bool v). Qed.

Lemma nonempty_eqb (d : string) : d ≠ "" → String.eqb d "" = false.
Proof. intros. by apply String.eqb_neq. Qed.

Lemma py_float_Raise v e :
  py_float v = Raise e → e = TypeError ∨ e = ValueError.
Proof.
  destruct v; simpl; try done; try (intros [= <-]; by left).
  destruct (float_of_str s); [done|]. intros [= <-]. by right.
Qed.

(** C7 (as amended): with a non-empty designation and a diameter that
    [float()] converts to [x], construction stores not-a-number when [x] is
    not a number, stores [x] when [x > 0], and fails on the assertion
    otherwise; a constructed NEO has a diameter that is not a number or is
    greater than zero, and its name is the name argument as given: [None]
    stays [None], a string is stored unchanged. *)
Theorem C7_neo_constructor d name diameter hazardous x :
  d ≠ "" →
  py_float diameter = Ok x →
  NearEarthObject.__init__ (Some d) name diameter hazardous
  = (if PrimFloat.is_nan x
     then Ok (NearEarthObject.mk d name PrimFloat.nan (py_bool hazardous) [])
     else if PrimFloat.ltb PrimFloat.zero x
          then Ok (NearEarthObject.mk d name x (py_bool hazardous) [])
          else Raise (AssertionError None))
  ∧ ∀ n, NearEarthObject.__init__ (Some d) name diameter hazardous = Ok n →
         NearEarthObject.name n = name
         ∧ (PrimFloat.is_nan (NearEarthObject.diameter n) = true
            ∨ PrimFloat.ltb PrimFloat.zero (NearEarthObject.diameter n) = true).
Proof.
  intros Hd Hx.
  assert (NearEarthObject.__init__ (Some d) name diameter hazardous
          = (if PrimFloat.is_nan x
             then Ok (NearEarthObject.mk d name PrimFloat.nan
                        (py_bool hazardous) [])
             else if PrimFloat.ltb PrimFloat.zero x
                  then Ok (NearEarthObject.mk d name x (py_bool hazardous) [])
                  else Raise (AssertionError None))) as Hinit.
  { unfold NearEarthObject.__init__.
    rewrite nonempty_eqb, Hx by done. simpl.
    rewrite hazardous_truth_value.
    destruct (PrimFloat.is_nan x).
    - rewrite orb_true_r. by destruct name.
    - rewrite orb_false_r.
      destruct (PrimFloat.ltb PrimFloat.zero x); [by destruct name|done]. }
  split; [done|]. rewrite Hinit. intros n.
  destruct (PrimFloat.is_nan x) eqn:Hnan.
  - intros [= <-]. simpl. split; [done|by left].
  - destruct (PrimFloat.ltb PrimFloat.zero x) eqn:Hpos; [|done].
    intros [= <-]. simpl. split; [done|by right].
Qed.

(** C8: both constructors fail on the designation assertion when the
    designation is [None] or empty, whatever the other arguments; for a
    non-empty designation that assertion is never the failure, the rest of
    the constructor decides, and the entity built stores the designation
    as given. *)
Theorem C8_designation_required d name diameter hazardous time distance velocity :
  d ≠ "" →
  NearEarthObject.__init__ None name diameter hazardous
  = Raise (designation_required None)
  ∧ NearEarthObject.__init__ (Some "") name diameter hazardous
    = Raise (designation_required (Some ""))
  ∧ CloseApproach.__init__ None time distance velocity
    = Raise (designation_required None)
  ∧ CloseApproach.__init__ (Some "") time distance velocity
    = Raise (designation_required (Some ""))
  ∧ (∀ v, NearEarthObject.__init__ (Some d) name diameter hazardous
          ≠ Raise (designation_required v))
  ∧ (∀ v, CloseApproach.__init__ (Some d) time distance velocity
          ≠ Raise (designation_required v))
  ∧ (is_Ok (NearEarthObject.__init__ (Some d) name diameter hazardous)
     ↔ ∃ x, py_float diameter = Ok x
            ∧ PrimFloat.ltb PrimFloat.zero x || PrimFloat.is_nan x = true)
  ∧ (is_Ok (CloseApproach.__init__ (Some d) time distance velocity)
     ↔ is_Some (cd_to_datetime time)
       ∧ is_Ok (py_float distance) ∧ is_Ok (py_float velocity))
  ∧ (∀ n, NearEarthObject.__init__ (Some d) name diameter hazardous = Ok n →
          NearEarthObject.designation n = d)
  ∧ (∀ a, CloseApproach.__init__ (Some d) time distance velocity = Ok a →
          CloseApproach.designation a = d).
Proof.
  intros Hd. do 4 (split; [done|]).
  unfold NearEarthObject.__init__, CloseApproach.__init__.
  rewrite nonempty_eqb by done.
  split; [|split; [|split; [|split; [|split]]]].
  - intros v. destruct (py_float diameter) as [x|e] eqn:Hx; simpl.
    + by case_match.
    + by destruct (py_float_Raise _ _ Hx) as [-> | ->].
  - intros v. destruct (cd_to_datetime time); [|done].
    destruct (py_float distance) as [x|e] eqn:Hx; simpl.
    + destruct (py_float velocity) as [y|e] eqn:Hy; simpl; [done|].
      by destruct (py_float_Raise _ _ Hy) as [-> | ->].
    + by destruct (py_float_Raise _ _ Hx) as [-> | ->].
  - destruct (py_float diameter) as [x|e]; simpl.
    + destruct (PrimFloat.is_nan x) eqn:Hnan.
      * rewrite orb_true_r.
        split; [intros _; exists x; by rewrite Hnan, orb_true_r|].
        intros _; apply is_Ok_Ok.
      * rewrite orb_false_r.
        destruct (PrimFloat.ltb PrimFloat.zero x) eqn:Hpos.
        -- split; [intros _; exists x; by rewrite Hpos|].
           intros _; apply is_Ok_Ok.
        -- split; [by intros ?%not_is_Ok_Raise|].
           intros (y & [= <-] & Hy). rewrite Hnan, Hpos in Hy. done.
    + split; [by intros ?%not_is_Ok_Raise|by intros (y & ? & _)].
  - destruct (cd_to_datetime time); simpl.
    + destruct (py_float distance); simpl.
      * destruct (py_float velocity); simpl.
        -- split; [intros _|intros _; apply is_Ok_Ok].
           split; [done|]. split; apply is_Ok_Ok.
        -- split; [by intros ?%not_is_Ok_Raise|].
           by intros (_ & _ & ?%not_is_Ok_Raise).
      * split; [by intros ?%not_is_Ok_Raise|].
        by intros (_ & ?%not_is_Ok_Raise & _).
    + split; [by intros ?%not_is_Ok_Raise|]. by intros ([? ?] & _).
  - intros n. destruct (py_float diameter) as [x|e]; simpl; [|done].
    case_match; [|done]. by intros [= <-].
  - intros a. destruct (cd_to_datetime time); [|done].
    destruct (py_float distance); simpl; [|done].
    destruct (py_float velocity); simpl; [|done]. by intros [= <-].
Qed.

End constructor_facts.

(** * Closed instances *)

Section examples.
#[local] Existing Instance example_runtime.
#[local] Existing Instance example_platform.

Lemma example_construction_Ok :
  NEODatabase.__init__ example_heap [0; 1; 2] [0; 1; 2]
  = Ok (example_db, example_linked_heap).
Proof. vm_compute. reflexivity. Qed.

Lemma example_matches a :
  a ∈ [0; 1; 2] →
  ∃ r, r ∈ [0; 1; 2] ∧ neo_key example_heap r = approach_key example_heap a.
Proof.
  rewrite !elem_of_cons, elem_of_nil. intros [-> | [-> | [-> | []]]].
  - exists 0. split; [set_solver|reflexivity].
  - exists 1. split; [set_solver|reflexivity].
  - exists 2. split; [set_solver|reflexivity].
Qed.

Lemma example_unique : unique_designations example_heap [0; 1; 2].
Proof.
  intros r r'. rewrite !elem_of_cons, !elem_of_nil.
  intros [-> | [-> | [-> | []]]] [-> | [-> | [-> | []]]]; done.
Qed.

Lemma C1_witness :
  (∀ a, a ∈ [0; 1; 2] →
     ∃ r, r ∈ [0; 1; 2] ∧ neo_key example_heap r = approach_key example_heap a)
  ∧ unique_designations example_heap [0; 1; 2]
  ∧ ∃ db h',
      NEODatabase.__init__ example_heap [0; 1; 2] [0; 1; 2] = Ok (db, h')
      ∧ (∀ a, a ∈ yielded (NEODatabase.query db [] h') →
           ∃ r, CloseApproach.neo (approach_at h' a) = Some r
                ∧ neo_key h' r = approach_key h' a)
      ∧ (∀ r, r ∈ [0; 1; 2] →
           NearEarthObject.approaches (neo_at h' r)
           = NearEarthObject.approaches (neo_at example_heap r)
             ++ filter (λ a, approach_key h' a = neo_key h' r) [0; 1; 2]).
Proof.
  split; [exact example_matches|]. split; [exact example_unique|].
  destruct (C1_links_after_construction example_heap [0; 1; 2] [0; 1; 2]
              example_matches) as (db & h' & Hinit & Hneo & Happ).
  exists db, h'. split; [exact Hinit|]. split; [exact Hneo|].
  exact (Happ example_unique).
Defined.

(** NEOs 2 and 3 differ in designation by case only: the index keeps the
    later one, which receives the approach, and the earlier one, whose
    designation the approach carries letter for letter, receives none. *)
Lemma C1_counterexample :
  (∀ a, a ∈ [2] →
     ∃ r, r ∈ [2; 3] ∧ neo_key example_heap r = approach_key example_heap a)
  ∧ ∃ db h',
      NEODatabase.__init__ example_heap [2; 3] [2] = Ok (db, h')
      ∧ NearEarthObject.approaches (neo_at h' 2) = []
      ∧ NearEarthObject.approaches (neo_at h' 3) = [2]
      ∧ filter (λ a, approach_key h' a = neo_key h' 2) [2] = [2]
      ∧ NearEarthObject.approaches (neo_at h' 2)
        ≠ filter (λ a, approach_key h' a = neo_key h' 2) [2].
Proof.
  split.
  - intros a ->%list_elem_of_singleton. exists 2. split; [set_solver|done].
  - eexists _, _. split; [reflexivity|]. by vm_compute.
Qed.

(** C4 at work on values that are not yet of the type the filter compares:
    a minimum distance given as [True] becomes the float 1.0, a hazard flag
    given as the non-empty text [no] becomes [True], and the two predicates
    come in the specified order; a minimum distance that [float()] does not
    read makes the factory fail. *)
Lemma C4_witness :
  create_filters PyNone PyNone PyNone (PyBool true) PyNone PyNone PyNone
    PyNone PyNone (PyStr "no")
  = Ok [AttributeFilter.mk DistanceFilter op_ge (PyFloat 1);
        AttributeFilter.mk HazardousFilter op_eq (PyBool true)]
  ∧ length [AttributeFilter.mk DistanceFilter op_ge (PyFloat 1);
            AttributeFilter.mk HazardousFilter op_eq (PyBool true)] = 2
  ∧ create_filters PyNone PyNone PyNone (PyStr "far") PyNone PyNone PyNone
      PyNone PyNone PyNone
    = Raise ValueError.
Proof.
  destruct C4_create_filters as [Hvalues _].
  destruct (Hvalues PyNone PyNone PyNone (PyBool true) PyNone PyNone PyNone
              PyNone PyNone (PyStr "no")) as [Hmade Hlength].
  assert (create_filters PyNone PyNone PyNone (PyBool true) PyNone PyNone
            PyNone PyNone PyNone (PyStr "no")
          = Ok [AttributeFilter.mk DistanceFilter op_ge (PyFloat 1);
                AttributeFilter.mk HazardousFilter op_eq (PyBool true)])
    as Hfilters by (rewrite Hmade; reflexivity).
  split; [exact Hfilters|]. split; [exact (Hlength _ Hfilters)|].
  destruct (Hvalues PyNone PyNone PyNone (PyStr "far") PyNone PyNone PyNone
              PyNone PyNone PyNone) as [Hfails _].
  rewrite Hfails. reflexivity.
Defined.

(** C6 at work on a 64-bit platform: a cap of 2 on three items yields the
    first two. *)
Lemma C6_witness :
  (2 ≤ maxsize)%Z
  ∧ limit (Generator [10; 20; 30] None) (Some 2%Z)
    = Ok (Generator [10; 20] None)
  ∧ length (take 2 [10; 20; 30]) = Nat.min 2 (length [10; 20; 30]).
Proof.
  assert (Z.pos 2 ≤ maxsize)%Z as Hcap by (by vm_compute).
  destruct (C6_limit [10; 20; 30]) as (_ & _ & Hpos & _).
  destruct (Hpos 2%positive Hcap) as (Hlimit & Hlength & _).
  split; [exact Hcap|]. split; [exact Hlimit|exact Hlength].
Defined.

(** C6 as the specification words it fails for a cap above [sys.maxsize]:
    on a 64-bit platform [limit] of three items with the positive cap 2^63
    raises [ValueError] instead of yielding the [min (2^63) 3 = 3] items. *)
Lemma C6_counterexample :
  (0 < 2 ^ 63)%Z
  ∧ Nat.min (Z.to_nat (2 ^ 63)) (length [10; 20; 30]) = 3
  ∧ limit (Generator [10; 20; 30] None) (Some (2 ^ 63)%Z) = Raise ValueError
  ∧ ∀ g : generator nat,
      limit (Generator [10; 20; 30] None) (Some (2 ^ 63)%Z) ≠ Ok g.
Proof.
  split; [done|]. split; [by rewrite Nat.min_r by (simpl; lia)|].
  assert (limit (Generator [10; 20; 30] None) (Some (2 ^ 63)%Z)
          = Raise ValueError) as Hraise by (by vm_compute).
  split; [exact Hraise|]. intros g. by rewrite Hraise.
Qed.

Lemma example_predicates f :
  f ∈ AttributeFilter.__call__ <$> example_filters →
  predicate_on example_linked_heap (NEODatabase._approaches example_db) f.
Proof.
  unfold example_filters. rewrite !fmap_cons, fmap_nil.
  rewrite !elem_of_cons, elem_of_nil.
  intros [-> | [-> | []]] a; change (NEODatabase._approaches example_db)
    with [0; 1; 2]; rewrite !elem_of_cons, elem_of_nil;
    intros [-> | [-> | [-> | []]]]; by eexists.
Qed.

Lemma C2_witness :
  (∀ f, f ∈ AttributeFilter.__call__ <$> example_filters →
     predicate_on example_linked_heap (NEODatabase._approaches example_db) f)
  ∧ NEODatabase.query example_db
      (AttributeFilter.__call__ <$> example_filters) example_linked_heap
    = Generator
        (filter
           (λ a, Forall (λ f : callable, f example_linked_heap a = Ok true)
                   (AttributeFilter.__call__ <$> example_filters))
           (NEODatabase._approaches example_db))
        None
  ∧ NEODatabase.query example_db [] example_linked_heap
    = Generator (NEODatabase._approaches example_db) None
  ∧ (∀ filters',
       AttributeFilter.__call__ <$> example_filters ≡ₚ filters' →
       NEODatabase.query example_db filters' example_linked_heap
       = NEODatabase.query example_db
           (AttributeFilter.__call__ <$> example_filters) example_linked_heap).
Proof.
  split; [exact example_predicates|].
  exact (C2_query_is_conjunction example_db example_linked_heap
           (AttributeFilter.__call__ <$> example_filters) example_predicates).
Defined.

(** The distances are 0.15, 0.25 and 0.05: only the first lies between 0.1
    and 0.2. *)
Example example_query_distance :
  NEODatabase.query example_db
    (AttributeFilter.__call__ <$> example_filters) example_linked_heap
  = Generator [0] None.
Proof. vm_compute. reflexivity. Qed.

Example example_create_filters :
  create_filters PyNone PyNone PyNone (PyFloat 0.1%float) (PyFloat 0.2%float)
    PyNone PyNone PyNone PyNone PyNone
  = Ok example_filters.
Proof. reflexivity. Qed.

(** [query(create_filters(hazardous=False))] and
    [query(create_filters(hazardous=True))]: only Apophis is hazardous. *)
Example example_query_hazardous :
  NEODatabase.query example_db
    [AttributeFilter.__call__
       (AttributeFilter.mk HazardousFilter op_eq (PyBool false))]
    example_linked_heap
  = Generator [0; 2] None
  ∧ NEODatabase.query example_db
      [AttributeFilter.__call__
         (AttributeFilter.mk HazardousFilter op_eq (PyBool true))]
      example_linked_heap
    = Generator [1] None.
Proof. by vm_compute. Qed.

(** The base class in a filter list ends the query with its error at the
    first approach that reaches it. *)
Example example_query_unsupported :
  NEODatabase.query example_db
    [AttributeFilter.__call__
       (AttributeFilter.mk HazardousFilter op_eq (PyBool true));
     AttributeFilter.__call__
       (AttributeFilter.mk AttributeFilter_ op_eq (PyBool true))]
    example_linked_heap
  = Generator [] (Some UnsupportedCriterionError).
Proof. by vm_compute. Qed.

Lemma C5_witness :
  NEODatabase.__init__ example_heap [0; 1; 2] [0; 1; 2]
  = Ok (example_db, example_linked_heap)
  ∧ NEODatabase.get_neo_by_designation example_db "2020 ab"
    = last (filter (λ r, neo_key example_linked_heap r = str_lower "2020 ab")
              [0; 1; 2])
  ∧ (NEODatabase.get_neo_by_designation example_db "433" = None ↔
     ∀ r, r ∈ [0; 1; 2] → neo_key example_linked_heap r ≠ str_lower "433")
  ∧ NEODatabase.get_neo_by_name example_db "EROS"
    = last (filter
              (λ r, name_key example_linked_heap r = Some (str_lower "EROS"))
              [0; 1; 2]).
Proof.
  split; [exact example_construction_Ok|].
  destruct (C5_lookup_by_key example_heap [0; 1; 2] [0; 1; 2]
              example_db example_linked_heap example_construction_Ok)
    as [Hdes Hname].
  split; [exact (proj1 (proj2 (Hdes "2020 ab")))|].
  split; [exact (proj1 (proj2 (proj2 (proj2 (Hdes "433")))))|].
  exact (proj1 (proj2 (Hname "EROS"))).
Defined.

Example example_lookups :
  NEODatabase.get_neo_by_designation example_db "2020 ab" = Some 2
  ∧ NEODatabase.get_neo_by_designation example_db "433" = None
  ∧ NEODatabase.get_neo_by_name example_db "EROS" = Some 0
  ∧ NEODatabase.get_neo_by_name example_db "" = None.
Proof. by vm_compute. Qed.

(** An approach whose designation no NEO of the collection carries. *)
Example example_unknown_designation :
  NEODatabase.__init__ example_heap [0; 2] [0; 1; 2] = Raise (KeyError "99942").
Proof. reflexivity. Qed.

Example example_limit :
  limit (NEODatabase.query example_db [] example_linked_heap) (Some 2%Z)
  = Ok (Generator [0; 1] None).
Proof. vm_compute. reflexivity. Qed.

Lemma C7_witness :
  "2000433" ≠ ""
  ∧ py_float (PyFloat 16.84%float) = Ok 16.84%float
  ∧ NearEarthObject.__init__ (Some "2000433") (Some "Eros")
      (PyFloat 16.84%float) (PyBool false)
    = Ok eros
  ∧ ∀ n, NearEarthObject.__init__ (Some "2000433") (Some "Eros")
           (PyFloat 16.84%float) (PyBool false) = Ok n →
         NearEarthObject.name n = Some "Eros"
         ∧ (PrimFloat.is_nan (NearEarthObject.diameter n) = true
            ∨ PrimFloat.ltb PrimFloat.zero (NearEarthObject.diameter n) = true).
Proof.
  assert ("2000433" ≠ "") as Hd by discriminate.
  split; [exact Hd|]. split; [reflexivity|].
  exact (C7_neo_constructor "2000433" (Some "Eros") (PyFloat 16.84%float)
           (PyBool false) 16.84%float Hd eq_refl).
Defined.

(** With the diameter left at its default, [None], the constructor fails
    in [float()]; a string that is no number makes it fail there too; and an
    empty name is stored as the empty string. *)
Lemma C7_counterexample :
  NearEarthObject.__init__ (Some "2000433") (Some "Eros") PyNone (PyBool false)
  = Raise TypeError
  ∧ NearEarthObject.__init__ (Some "2000433") (Some "Eros")
      (PyStr "unknown") (PyBool false)
    = Raise ValueError
  ∧ NearEarthObject.__init__ (Some "2000433") (Some "")
      (PyFloat 16.84%float) (PyBool false)
    = Ok (NearEarthObject.mk "2000433" (Some "") 16.84%float false []).
Proof. by vm_compute. Qed.

Lemma C8_witness :
  "2000433" ≠ ""
  ∧ NearEarthObject.__init__ None (Some "Eros") (PyFloat 16.84%float)
      (PyBool false)
    = Raise (designation_required None)
  ∧ CloseApproach.__init__ (Some "") "2020-Jan-01 00:00"
      (PyFloat 0.15%float) (PyFloat 5.2%float)
    = Raise (designation_required (Some ""))
  ∧ is_Ok (NearEarthObject.__init__ (Some "2000433") (Some "Eros")
             (PyFloat 16.84%float) (PyBool false))
  ∧ is_Ok (CloseApproach.__init__ (Some "2000433") "2020-Jan-01 00:00"
             (PyFloat 0.15%float) (PyFloat 5.2%float))
  ∧ (∀ n, NearEarthObject.__init__ (Some "2000433") (Some "Eros")
            (PyFloat 16.84%float) (PyBool false) = Ok n →
          NearEarthObject.designation n = "2000433")
  ∧ (∀ a, CloseApproach.__init__ (Some "2000433") "2020-Jan-01 00:00"
            (PyFloat 0.15%float) (PyFloat 5.2%float) = Ok a →
          CloseApproach.designation a = "2000433").
Proof.
  assert ("2000433" ≠ "") as Hd by discriminate.
  destruct (C8_designation_required "2000433" (Some "Eros")
              (PyFloat 16.84%float) (PyBool false) "2020-Jan-01 00:00"
              (PyFloat 0.15%float) (PyFloat 5.2%float) Hd)
    as (Hneo & _ & _ & Hca & _ & _ & Hneo_ok & Hca_ok & Hneo_des & Hca_des).
  split; [exact Hd|]. split; [exact Hneo|]. split; [exact Hca|].
  split.
  { apply Hneo_ok. exists 16.84%float. split; reflexivity. }
  split.
  { apply Hca_ok. split; [by eexists|]. split; apply is_Ok_Ok. }
  split; [exact Hneo_des|exact Hca_des].
Defined.

Example example_constructors :
  NearEarthObject.__init__ (Some "2000433") (Some "Eros") (PyFloat 16.84%float)
    (PyBool false) = Ok eros
  ∧ NearEarthObject.__init__ (Some "2020 AB") None (PyStr "nan") PyNone
    = Ok unnamed_upper
  ∧ NearEarthObject.__init__ (Some "2020 AB") None (PyFloat (-1)%float) PyNone
    = Raise (AssertionError None)
  ∧ CloseApproach.__init__ (Some "2000433") "2020-Jan-01 00:00"
      (PyFloat 0.15%float) (PyFloat 5.2%float) = Ok eros_2020.
Proof. by vm_compute. Qed.

Lemma C9_witness :
  CloseApproach.neo (approach_at example_linked_heap 1) = Some 1
  ∧ CloseApproach.neo (approach_at example_heap 1) = None
  ∧ AttributeFilter.__call__
      (AttributeFilter.mk AttributeFilter_ op_eq (PyBool true))
      example_heap 1
    = Raise UnsupportedCriterionError
  ∧ AttributeFilter.__call__
      (AttributeFilter.mk AttributeFilter_ op_eq (PyBool true))
      example_linked_heap 1
    = Raise UnsupportedCriterionError
  ∧ AttributeFilter.__call__
      (AttributeFilter.mk HazardousFilter op_eq (PyBool true))
      example_linked_heap 1
    = apply_op op_eq
        (PyBool (NearEarthObject.hazardous (neo_at example_linked_heap 1)))
        (PyBool true)
  ∧ AttributeFilter.__call__
      (AttributeFilter.mk HazardousFilter op_eq (PyBool true))
      example_linked_heap 1
    ≠ Raise UnsupportedCriterionError.
Proof.
  assert (CloseApproach.neo (approach_at example_linked_heap 1) = Some 1)
    as Hneo by reflexivity.
  destruct (C9_filter_call example_linked_heap 1) as [Hany Hlinked].
  destruct (Hlinked 1 Hneo op_eq (PyBool true)) as (_ & Hhaz & _).
  destruct (Hany op_eq (PyBool true)) as (Hbase & _ & _ & _ & Hsub).
  split; [exact Hneo|]. split; [reflexivity|].
  split; [exact (proj1 (proj1 (C9_filter_call example_heap 1)
                          op_eq (PyBool true)))|].
  split; [exact Hbase|].
  split; [exact Hhaz|].
  refine (Hsub HazardousFilter _). discriminate.
Defined.

Lemma C10_witness :
  CloseApproach.neo (approach_at example_heap 1) = None
  ∧ AttributeFilter.__call__
      (AttributeFilter.mk DiameterFilter op_ge (PyFloat 0.1%float))
      example_heap 1
    = Raise AttributeError
  ∧ AttributeFilter.__call__
      (AttributeFilter.mk HazardousFilter op_eq (PyBool true)) example_heap 1
    = Raise AttributeError
  ∧ AttributeFilter.__call__
      (AttributeFilter.mk DistanceFilter op_ge (PyFloat 0.1%float))
      example_heap 1
    = apply_op op_ge
        (PyFloat (CloseApproach.distance (approach_at example_heap 1)))
        (PyFloat 0.1%float).
Proof.
  assert (CloseApproach.neo (approach_at example_heap 1) = None)
    as Hneo by reflexivity.
  split; [exact Hneo|].
  split; [exact (proj1 (C10_unlinked_approach example_heap 1 Hneo op_ge
                         (PyFloat 0.1%float)))|].
  split; [exact (proj1 (proj2 (C10_unlinked_approach example_heap 1 Hneo op_eq
                                 (PyBool true))))|].
  exact (proj1 (proj2 (proj2 (proj2
           (C10_unlinked_approach example_heap 1 Hneo op_ge
              (PyFloat 0.1%float)))))).
Defined.

Example example_filter_calls :
  AttributeFilter.__call__
    (AttributeFilter.mk HazardousFilter op_eq (PyBool true))
    example_linked_heap 1 = Ok true
  ∧ AttributeFilter.__call__
      (AttributeFilter.mk DiameterFilter op_ge (PyFloat 0.1%float))
      example_linked_heap 2 = Ok false
  ∧ AttributeFilter.__call__
      (AttributeFilter.mk DateFilter op_le (PyDate (Date 2020 12 31)))
      example_heap 1 = Ok false
  ∧ AttributeFilter.__call__
      (AttributeFilter.mk DateFilter op_le (PyFloat 1%float))
      example_heap 1 = Raise TypeError.
Proof. by vm_compute. Qed.

End examples.

(** * Further properties of the database *)

Section database_more.
Context {RT : Runtime}.

(** The indices read designations and names only. *)
Lemma index_neos_same h h' neos d n :
  same_attributes h h' →
  NEODatabase.index_neos h' neos d n = NEODatabase.index_neos h neos d n.
Proof.
  intros Hsame. revert d n.
  induction neos as [|r neos IH]; intros d n; [done|].
  cbn [NEODatabase.index_neos].
  rewrite (same_neo_designation _ _ Hsame), (same_neo_name _ _ Hsame).
  apply IH.
Qed.

Lemma approach_eta (x y : CloseApproach.t) :
  CloseApproach.designation x = CloseApproach.designation y →
  CloseApproach.time x = CloseApproach.time y →
  CloseApproach.distance x = CloseApproach.distance y →
  CloseApproach.velocity x = CloseApproach.velocity y →
  CloseApproach.neo x = CloseApproach.neo y →
  x = y.
Proof. destruct x, y; simpl; congruence. Qed.

Lemma neo_eta (x y : NearEarthObject.t) :
  NearEarthObject.designation x = NearEarthObject.designation y →
  NearEarthObject.name x = NearEarthObject.name y →
  NearEarthObject.diameter x = NearEarthObject.diameter y →
  NearEarthObject.hazardous x = NearEarthObject.hazardous y →
  NearEarthObject.approaches x = NearEarthObject.approaches y →
  x = y.
Proof. destruct x, y; simpl; congruence. Qed.

(** X1: construction writes the two links and nothing else: no
    designation, name, diameter, hazard flag, time, distance or velocity
    changes; an approach outside the approach collection and a NEO outside
    the NEO collection are left exactly as they were; and a NEO's
    [approaches] only grow at the end. *)
Theorem construction_writes_links_only h neos approaches db h' :
  NEODatabase.__init__ h neos approaches = Ok (db, h') →
  same_attributes h h'
  ∧ (∀ a, a ∉ approaches → approach_at h' a = approach_at h a)
  ∧ (∀ r, r ∉ neos → neo_at h' r = neo_at h r)
  ∧ (∀ r, NearEarthObject.approaches (neo_at h r)
          `prefix_of` NearEarthObject.approaches (neo_at h' r)).
Proof.
  intros Hinit. destruct (init_Ok _ _ _ _ _ Hinit) as [_ Hlink].
  destruct (link_approaches_Ok _ _ _ _ Hlink) as (Hsame & Hneo & Happ).
  split; [done|]. destruct Hsame. split; [|split].
  - intros a Ha. apply approach_eta; try done.
    by rewrite Hneo, decide_False.
  - intros r Hr. apply neo_eta; try done.
    rewrite Happ.
    assert (filter (λ a, (NEODatabase.index_neos h neos ∅ ∅).1
                         !! approach_key h a = Some r) approaches = [])
      as ->; [|by rewrite app_nil_r].
    apply last_None, last_filter_None.
    intros a _ [? _]%designation_index_Some. done.
  - intros r. rewrite Happ. by eexists.
Qed.

(** X2: with designations unique up to case, looking up the designation
    of any NEO of the collection returns that very object. *)
Theorem lookup_by_designation_finds_neo h neos approaches db h' r :
  NEODatabase.__init__ h neos approaches = Ok (db, h') →
  unique_designations h neos →
  r ∈ neos →
  NEODatabase.get_neo_by_designation db
    (NearEarthObject.designation (neo_at h' r)) = Some r.
Proof.
  intros Hinit Huniq Hr. destruct (init_Ok _ _ _ _ _ Hinit) as [-> Hlink].
  destruct (link_approaches_Ok _ _ _ _ Hlink) as (Hsame & _ & _).
  unfold NEODatabase.get_neo_by_designation. simpl.
  fold (neo_key h' r). rewrite (neo_key_same h h') by done.
  rewrite index_neos_designation, last_filter_unique by done. done.
Qed.

(** X3: looking up the name of a named NEO of the collection returns
    that very object, provided no other NEO of the collection has the
    same name up to case. *)
Theorem lookup_by_name_finds_neo h neos approaches db h' r nm :
  NEODatabase.__init__ h neos approaches = Ok (db, h') →
  (∀ r', r' ∈ neos → name_key h r' = name_key h r → r' = r) →
  r ∈ neos →
  NearEarthObject.name (neo_at h' r) = Some nm →
  NEODatabase.get_neo_by_name db nm = Some r.
Proof.
  intros Hinit Huniq Hr Hnm. destruct (init_Ok _ _ _ _ _ Hinit) as [-> Hlink].
  destruct (link_approaches_Ok _ _ _ _ Hlink) as (Hsame & _ & _).
  rewrite (same_neo_name _ _ Hsame) in Hnm.
  assert (name_key h r = Some (str_lower nm)) as Hkey
    by (unfold name_key; by rewrite Hnm).
  unfold NEODatabase.get_neo_by_name. simpl.
  rewrite index_neos_name.
  destruct (last _) as [r'|] eqn:E.
  - apply last_filter_Some in E as [Hr' Hk]. f_equal. apply Huniq; [done|].
    by rewrite Hk.
  - rewrite last_filter_None in E. by destruct (E r Hr).
Qed.

(** X4: after construction the two directions of the link agree: an
    approach is in the [approaches] of a NEO that had none before exactly
    when it is in the approach collection and its [neo] is that NEO. *)
Theorem links_are_mutual h neos approaches db h' r a :
  NEODatabase.__init__ h neos approaches = Ok (db, h') →
  NearEarthObject.approaches (neo_at h r) = [] →
  a ∈ NearEarthObject.approaches (neo_at h' r)
  ↔ a ∈ approaches ∧ CloseApproach.neo (approach_at h' a) = Some r.
Proof.
  intros Hinit Hfresh. destruct (init_Ok _ _ _ _ _ Hinit) as [_ Hlink].
  destruct (link_approaches_Ok _ _ _ _ Hlink) as (_ & Hneo & Happ).
  rewrite Happ, Hfresh, app_nil_l, list_elem_of_filter.
  split.
  - intros [Hk Ha]. split; [done|]. by rewrite Hneo, decide_True.
  - intros [Ha Hk]. split; [|done]. by rewrite Hneo, decide_True in Hk.
Qed.

(** X5: construction is not idempotent: building a second database over
    the same collections succeeds with the same indices and appends to
    every NEO, once more, the approaches the first construction gave it. *)
Theorem second_construction_appends_again h neos approaches db h1 :
  NEODatabase.__init__ h neos approaches = Ok (db, h1) →
  ∃ h2,
    NEODatabase.__init__ h1 neos approaches = Ok (db, h2)
    ∧ ∀ r, ∃ added,
        NearEarthObject.approaches (neo_at h1 r)
        = NearEarthObject.approaches (neo_at h r) ++ added
        ∧ NearEarthObject.approaches (neo_at h2 r)
          = NearEarthObject.approaches (neo_at h r) ++ added ++ added.
Proof.
  intros Hinit. destruct (init_Ok _ _ _ _ _ Hinit) as [-> Hlink].
  destruct (link_approaches_Ok _ _ _ _ Hlink) as (Hsame & _ & Happ).
  assert (is_Ok (NEODatabase.link_approaches
                   (NEODatabase.index_neos h neos ∅ ∅).1 approaches h1))
    as [h2 Hlink2].
  { apply link_approaches_is_Ok. intros a Ha.
    rewrite (approach_key_same h h1) by done.
    assert (is_Ok (NEODatabase.link_approaches
                     (NEODatabase.index_neos h neos ∅ ∅).1 approaches h))
      as Hok by (rewrite Hlink; apply is_Ok_Ok).
    rewrite link_approaches_is_Ok in Hok. by apply Hok. }
  exists h2. split.
  - unfold NEODatabase.__init__. rewrite (index_neos_same h h1) by done.
    destruct (NEODatabase.index_neos h neos ∅ ∅) as [d2n n2n]. simpl in *.
    by rewrite Hlink2.
  - intros r.
    exists (filter (λ a, (NEODatabase.index_neos h neos ∅ ∅).1
                         !! approach_key h a = Some r) approaches).
    split; [apply Happ|].
    destruct (link_approaches_Ok _ _ _ _ Hlink2) as (_ & _ & Happ2).
    rewrite Happ2, Happ, <- app_assoc. do 2 f_equal.
    apply list_filter_iff. intros a. by rewrite (approach_key_same h h1).
Qed.

End database_more.

(** * Further properties of querying *)

Lemma semaphor_true (filters : list callable) h a :
  NEODatabase.semaphor filters h a = Ok true
  ↔ Forall (λ f : callable, f h a = Ok true) filters.
Proof.
  induction filters as [|f fs IH]; [by split|].
  cbn [NEODatabase.semaphor]. rewrite Forall_cons, <- IH.
  destruct (f h a) as [[]|e]; simpl; split; try done; try tauto;
    by intros [[=] _].
Qed.

Lemma semaphor_Raise (filters : list callable) h a e :
  NEODatabase.semaphor filters h a = Raise e →
  ∃ f, f ∈ filters ∧ f h a = Raise e.
Proof.
  induction filters as [|f fs IH]; [done|].
  cbn [NEODatabase.semaphor].
  destruct (f h a) as [[]|e'] eqn:Hf; simpl.
  - intros (g & Hg & He)%IH. exists g. split; [by apply list_elem_of_further|done].
  - done.
  - intros [= ->]. exists f. split; [apply list_elem_of_here|done].
Qed.

(** Filters are tried from the left, and the first that rejects or raises
    settles the outcome: those after it are not called. *)
Lemma semaphor_app (fs1 fs2 : list callable) h a :
  NEODatabase.semaphor (fs1 ++ fs2) h a
  = match NEODatabase.semaphor fs1 h a with
    | Ok true => NEODatabase.semaphor fs2 h a
    | outcome => outcome
    end.
Proof.
  induction fs1 as [|f fs IH]; [done|].
  rewrite <- app_comm_cons. cbn [NEODatabase.semaphor].
  destruct (f h a) as [[]|e]; simpl; done.
Qed.

Lemma query_from_sound approaches (filters : list callable) h :
  yielded (NEODatabase.query_from approaches filters h) `sublist_of` approaches
  ∧ (∀ a, a ∈ yielded (NEODatabase.query_from approaches filters h) →
          Forall (λ f : callable, f h a = Ok true) filters)
  ∧ (∀ e, raised (NEODatabase.query_from approaches filters h) = Some e →
          ∃ a f, a ∈ approaches ∧ f ∈ filters ∧ f h a = Raise e).
Proof.
  induction approaches as [|a l (IHsub & IHall & IHerr)].
  { simpl. split; [done|]. split; [by intros ? ?%not_elem_of_nil|done]. }
  cbn [NEODatabase.query_from].
  destruct (NEODatabase.semaphor filters h a) as [[]|e] eqn:Hsem; simpl.
  - split; [by apply sublist_skip|]. split.
    + intros b [->|Hb]%elem_of_cons; [by apply semaphor_true|by apply IHall].
    + intros e (b & f & ? & ? & ?)%IHerr. exists b, f.
      split; [by apply list_elem_of_further|done].
  - split; [by apply sublist_cons|]. split; [done|].
    intros e (b & f & ? & ? & ?)%IHerr. exists b, f.
    split; [by apply list_elem_of_further|done].
  - split; [apply sublist_nil_l|]. split; [by intros ? ?%not_elem_of_nil|].
    intros e' [= <-]. apply semaphor_Raise in Hsem as (f & ? & ?).
    exists a, f. split; [apply list_elem_of_here|done].
Qed.

(** X6: whatever the filters are, [query] only yields approaches of the
    collection, in the order of the collection, on which every filter
    returned true; and an exception that ends it was raised by one of the
    filters on one of the approaches. *)
Theorem query_yields_only_matches db (filters : list callable) h :
  yielded (NEODatabase.query db filters h)
    `sublist_of` NEODatabase._approaches db
  ∧ (∀ a, a ∈ yielded (NEODatabase.query db filters h) →
          Forall (λ f : callable, f h a = Ok true) filters)
  ∧ (∀ e, raised (NEODatabase.query db filters h) = Some e →
          ∃ a f, a ∈ NEODatabase._approaches db ∧ f ∈ filters
                 ∧ f h a = Raise e).
Proof. apply query_from_sound. Qed.

Lemma query_from_complete approaches (filters : list callable) h :
  raised (NEODatabase.query_from approaches filters h) = None →
  yielded (NEODatabase.query_from approaches filters h)
  = filter (λ a, Forall (λ f : callable, f h a = Ok true) filters) approaches.
Proof.
  induction approaches as [|a l IH]; [done|].
  cbn [NEODatabase.query_from].
  destruct (NEODatabase.semaphor filters h a) as [[]|e] eqn:Hsem; simpl.
  - intros Hnone. rewrite filter_cons_True by by apply semaphor_true.
    by rewrite IH.
  - intros Hnone. rewrite filter_cons_False; [by apply IH|].
    rewrite <- semaphor_true. congruence.
  - done.
Qed.

(** X7: a query that ends without an exception has yielded every
    approach of the collection on which all filters return true, even when
    some filter would raise on an approach an earlier filter rejects. *)
Theorem query_without_error_is_complete db (filters : list callable) h :
  raised (NEODatabase.query db filters h) = None →
  yielded (NEODatabase.query db filters h)
  = filter (λ a, Forall (λ f : callable, f h a = Ok true) filters)
      (NEODatabase._approaches db).
Proof. apply query_from_complete. Qed.

(** X8: querying with two filter lists appended is querying with the
    second list over what the first list yields, provided the first ends
    without an exception; the filters of the second list are only called on
    approaches the first list accepts. *)
Theorem query_app db (fs1 fs2 : list callable) h :
  raised (NEODatabase.query db fs1 h) = None →
  NEODatabase.query db (fs1 ++ fs2) h
  = NEODatabase.query_from (yielded (NEODatabase.query db fs1 h)) fs2 h.
Proof.
  unfold NEODatabase.query.
  induction (NEODatabase._approaches db) as [|a l IH]; [done|].
  cbn [NEODatabase.query_from]. rewrite semaphor_app.
  destruct (NEODatabase.semaphor fs1 h a) as [[]|e] eqn:Hsem; simpl.
  - intros Hnone. cbn [NEODatabase.query_from].
    destruct (NEODatabase.semaphor fs2 h a) as [[]|e]; simpl;
      [by rewrite IH|by apply IH|done].
  - apply IH.
  - done.
Qed.

(** * Further properties of the filters *)

(** ** Not-a-number in comparisons *)

Lemma is_nan_spec x :
  PrimFloat.is_nan x = true → FloatOps.Prim2SF x = SpecFloat.S754_nan.
Proof.
  unfold PrimFloat.is_nan. rewrite FloatAxioms.eqb_spec.
  unfold SpecFloat.SFeqb.
  destruct (FloatOps.Prim2SF x) as [s|s| |s m e]; simpl; try done.
  - by destruct s.
  - destruct s; rewrite Z.compare_refl, Pos.compare_cont_refl; done.
Qed.

Lemma nan_compares_false x y :
  PrimFloat.is_nan x = true →
  PrimFloat.eqb x y = false
  ∧ PrimFloat.leb x y = false
  ∧ PrimFloat.leb y x = false.
Proof.
  intros Hnan%is_nan_spec.
  rewrite FloatAxioms.eqb_spec, !FloatAxioms.leb_spec, Hnan.
  unfold SpecFloat.SFeqb, SpecFloat.SFleb, SpecFloat.SFcompare.
  by destruct (FloatOps.Prim2SF y).
Qed.

(** X9: an approach whose NEO has an unknown diameter (not-a-number) is
    rejected by every diameter filter with a numeric reference value,
    whichever of the three operators it uses: no diameter criterion, not
    even an upper bound, lets a NEO of unknown diameter through. *)
Theorem unknown_diameter_meets_no_bound h a r o v :
  CloseApproach.neo (approach_at h a) = Some r →
  PrimFloat.is_nan (NearEarthObject.diameter (neo_at h r)) = true →
  is_Some (as_number v) →
  AttributeFilter.__call__ (AttributeFilter.mk DiameterFilter o v) h a
  = Ok false.
Proof.
  intros Hneo Hnan [y Hy].
  unfold AttributeFilter.__call__, AttributeFilter.get. simpl.
  rewrite Hneo. simpl.
  destruct (nan_compares_false _ y Hnan) as (Heq & Hle & Hge).
  destruct o; simpl; unfold py_eq, py_le; simpl; rewrite Hy;
    by rewrite ?Heq, ?Hle, ?Hge.
Qed.

(** ** The factory and the database together *)

Lemma filter_ext_in {A} (P Q : A → Prop)
    `{!∀ x, Decision (P x)} `{!∀ x, Decision (Q x)} (l : list A) :
  (∀ x, x ∈ l → P x ↔ Q x) → filter P l = filter Q l.
Proof.
  induction l as [|x l IH]; intros Hext; [done|].
  rewrite !filter_cons.
  rewrite IH by (intros y Hy; by apply Hext, list_elem_of_further).
  destruct (decide (P x)) as [HP|HP], (decide (Q x)) as [HQ|HQ]; try done;
    by destruct (Hext x (list_elem_of_here x l)); tauto.
Qed.

Lemma and_iff_both (A A' B B' : Prop) :
  (A ↔ A') → (B ↔ B') → (A ∧ B ↔ A' ∧ B').
Proof. tauto. Qed.

Lemma Forall_predicate_for {A} (P : AttributeFilter.t → Prop) c o
    (inj : A → pyval) (test : A → bool) x :
  (∀ v, P (AttributeFilter.mk c o (inj v)) ↔ test v = true) →
  Forall P (predicate_for c o inj x) ↔ within test x = true.
Proof.
  intros Htest. destruct x as [v|]; simpl.
  - by rewrite Forall_singleton.
  - split; [done|]. intros _. apply Forall_nil_2.
Qed.

Lemma predicate_for_comparable {A} c o (inj : A → pyval) x :
  c ≠ AttributeFilter_ →
  (∀ v, comparable (AttributeFilter.mk c o (inj v)) = true) →
  Forall (λ f, AttributeFilter.cls f ≠ AttributeFilter_ ∧ comparable f = true)
    (predicate_for c o inj x).
Proof.
  intros Hc Hcmp. destruct x as [v|]; simpl; [|apply Forall_nil_2].
  apply Forall_singleton. by split.
Qed.

Section factory_and_database.
Context {RT : Runtime}.

Lemma create_filters_typed
    (date start_date end_date : option date)
    (distance_min distance_max velocity_min velocity_max
     diameter_min diameter_max : option float)
    (hazardous : option bool) :
  create_filters (of_date date) (of_date start_date) (of_date end_date)
    (of_float distance_min) (of_float distance_max)
    (of_float velocity_min) (of_float velocity_max)
    (of_float diameter_min) (of_float diameter_max)
    (of_bool hazardous)
  = Ok (predicates_for_criteria date start_date end_date
          distance_min distance_max velocity_min velocity_max
          diameter_min diameter_max hazardous).
Proof.
  unfold create_filters, predicates_for_criteria.
  repeat (first [ rewrite append_if_supplied_date
                | rewrite append_if_supplied_float
                | rewrite append_if_supplied_bool ];
          cbn [mbind result_bind]).
  by rewrite <- !app_assoc.
Qed.

(** X10: on a constructed database, querying with the filters the factory
    builds from typed criteria never raises and yields, in the order of the
    collection, exactly the approaches whose date equals the exact date and
    lies between the start and end dates, whose distance and velocity lie
    between their bounds, and whose NEO has a diameter between its bounds
    and the requested hazard flag; an omitted criterion constrains
    nothing. *)
Theorem query_by_criteria h neos approaches db h'
    (date start_date end_date : option date)
    (distance_min distance_max velocity_min velocity_max
     diameter_min diameter_max : option float)
    (hazardous : option bool) :
  NEODatabase.__init__ h neos approaches = Ok (db, h') →
  ∃ filters,
    create_filters (of_date date) (of_date start_date) (of_date end_date)
      (of_float distance_min) (of_float distance_max)
      (of_float velocity_min) (of_float velocity_max)
      (of_float diameter_min) (of_float diameter_max)
      (of_bool hazardous)
    = Ok filters
    ∧ NEODatabase.query db (AttributeFilter.__call__ <$> filters) h'
      = Generator
          (filter
             (λ a, meets_criteria h' date start_date end_date
                     distance_min distance_max velocity_min velocity_max
                     diameter_min diameter_max hazardous a = true)
             approaches)
          None.
Proof.
  intros Hinit. eexists. split; [apply create_filters_typed|].
  erewrite query_constructed; [|done|].
  2:{ unfold predicates_for_criteria. rewrite !Forall_app.
      repeat split; apply predicate_for_comparable; try done;
        intros v; unfold comparable; simpl; done. }
  f_equal. apply filter_ext_in. intros a Ha.
  destruct (constructed_linked _ _ _ _ _ a Hinit Ha) as [r Hr].
  unfold meets_criteria, predicates_for_criteria. rewrite Hr.
  rewrite <- !andb_assoc, !Forall_app, !andb_true_iff.
  repeat match goal with |- _ ∧ _ ↔ _ ∧ _ => apply and_iff_both end.
  all: apply Forall_predicate_for; intros v;
    unfold AttributeFilter.__call__, AttributeFilter.get; simpl;
    rewrite ?Hr; simpl.
  all: unfold py_le, py_eq; simpl.
  all: try (split; [by intros [= ->]|by intros ->]).
  destruct (NearEarthObject.hazardous (neo_at h' r)), v; vm_compute;
    split; congruence.
Qed.

End factory_and_database.

Section factory_more.
Context {RT : Runtime}.

Lemma append_if_supplied_as_is fs c o v :
  is_Ok (append_if_supplied fs c o as_is v).
Proof. unfold append_if_supplied. destruct v; apply is_Ok_Ok. Qed.

Lemma append_if_supplied_to_bool fs c o v :
  is_Ok (append_if_supplied fs c o to_bool v).
Proof. unfold append_if_supplied. destruct v; apply is_Ok_Ok. Qed.

Lemma append_if_supplied_to_float fs c o v :
  is_Ok (append_if_supplied fs c o to_float v)
  ↔ v = PyNone ∨ is_Ok (py_float v).
Proof.
  unfold append_if_supplied, to_float.
  destruct v as [|b|x|s|d]; simpl.
  - split; [by left|intros _; apply is_Ok_Ok].
  - split; [intros _; right|intros _]; apply is_Ok_Ok.
  - split; [intros _; right|intros _]; apply is_Ok_Ok.
  - destruct (float_of_str s); simpl.
    + split; [intros _; right|intros _]; apply is_Ok_Ok.
    + split; [by intros ?%not_is_Ok_Raise|].
      by intros [?|?%not_is_Ok_Raise].
  - split; [by intros ?%not_is_Ok_Raise|].
    by intros [?|?%not_is_Ok_Raise].
Qed.

Lemma is_Ok_bind {A B} (m : result A) (k : A → result B) :
  is_Ok (m ≫= k) ↔ ∃ x, m = Ok x ∧ is_Ok (k x).
Proof.
  destruct m as [x|e]; simpl.
  - split; [intros ?; by exists x|by intros (? & [= <-] & ?)].
  - split; [by intros ?%not_is_Ok_Raise|by intros (? & ? & _)].
Qed.

(** X11: the factory raises exactly when a supplied distance, velocity
    or diameter bound is a value [float()] rejects; dates and the hazard
    flag are never a reason to fail, whatever values they are. *)
Theorem create_filters_succeeds_iff
    (date start_date end_date
     distance_min distance_max velocity_min velocity_max
     diameter_min diameter_max hazardous : pyval) :
  is_Ok (create_filters date start_date end_date
           distance_min distance_max velocity_min velocity_max
           diameter_min diameter_max hazardous)
  ↔ Forall (λ v, v = PyNone ∨ is_Ok (py_float v))
      [distance_min; distance_max; velocity_min; velocity_max;
       diameter_min; diameter_max].
Proof.
  unfold create_filters. rewrite !Forall_cons.
  repeat setoid_rewrite is_Ok_bind.
  split.
  - intros (f1 & _ & f2 & _ & f3 & _ & f4 & H4 & f5 & H5 & f6 & H6
            & f7 & H7 & f8 & H8 & f9 & H9 & _).
    repeat split; try apply Forall_nil_2.
    + apply (proj1 (append_if_supplied_to_float f3 DistanceFilter op_ge _)).
      rewrite H4. apply is_Ok_Ok.
    + apply (proj1 (append_if_supplied_to_float f4 DistanceFilter op_le _)).
      rewrite H5. apply is_Ok_Ok.
    + apply (proj1 (append_if_supplied_to_float f5 VelocityFilter op_ge _)).
      rewrite H6. apply is_Ok_Ok.
    + apply (proj1 (append_if_supplied_to_float f6 VelocityFilter op_le _)).
      rewrite H7. apply is_Ok_Ok.
    + apply (proj1 (append_if_supplied_to_float f7 DiameterFilter op_ge _)).
      rewrite H8. apply is_Ok_Ok.
    + apply (proj1 (append_if_supplied_to_float f8 DiameterFilter op_le _)).
      rewrite H9. apply is_Ok_Ok.
  - intros (H4 & H5 & H6 & H7 & H8 & H9 & _).
    destruct (append_if_supplied_as_is [] DateFilter op_eq date) as [f1 E1].
    exists f1. split; [done|].
    destruct (append_if_supplied_as_is f1 DateFilter op_ge start_date)
      as [f2 E2].
    exists f2. split; [done|].
    destruct (append_if_supplied_as_is f2 DateFilter op_le end_date)
      as [f3 E3].
    exists f3. split; [done|].
    destruct (proj2 (append_if_supplied_to_float f3 DistanceFilter op_ge _) H4)
      as [f4 E4].
    exists f4. split; [done|].
    destruct (proj2 (append_if_supplied_to_float f4 DistanceFilter op_le _) H5)
      as [f5 E5].
    exists f5. split; [done|].
    destruct (proj2 (append_if_supplied_to_float f5 VelocityFilter op_ge _) H6)
      as [f6 E6].
    exists f6. split; [done|].
    destruct (proj2 (append_if_supplied_to_float f6 VelocityFilter op_le _) H7)
      as [f7 E7].
    exists f7. split; [done|].
    destruct (proj2 (append_if_supplied_to_float f7 DiameterFilter op_ge _) H8)
      as [f8 E8].
    exists f8. split; [done|].
    destruct (proj2 (append_if_supplied_to_float f8 DiameterFilter op_le _) H9)
      as [f9 E9].
    exists f9. split; [done|].
    destruct (append_if_supplied_to_bool f9 HazardousFilter op_eq hazardous)
      as [f10 E10].
    exists f10. split; [done|]. apply is_Ok_Ok.
Qed.

End factory_more.

(** * Further properties of the limiter *)

Section limiter_more.
Context {PF : Platform}.

(** X12: limiting twice with positive caps is limiting once with the
    smaller cap when neither cap is above [sys.maxsize], and fails with
    [ValueError] when one is; this holds for every generator, also one that
    ends in an exception: the exception is met only if fewer items than the
    smaller cap are yielded before it. *)
Theorem limit_limit {A} (g : generator A) (a b : positive) :
  limit g (Some (Z.pos a)) ≫= (λ g', limit g' (Some (Z.pos b)))
  = if (Z.pos a <=? maxsize)%Z && (Z.pos b <=? maxsize)%Z
    then limit g (Some (Z.pos (Pos.min a b)))
    else Raise ValueError.
Proof.
  unfold limit, islice. simpl.
  destruct (Z.leb_spec (Z.pos a) maxsize) as [Ha|Ha]; simpl.
  - rewrite (proj2 (Z.ltb_ge maxsize (Z.pos a))) by done. simpl.
    destruct (Z.leb_spec (Z.pos b) maxsize) as [Hb|Hb]; simpl.
    + rewrite (proj2 (Z.ltb_ge maxsize (Z.pos b))) by done.
      rewrite (proj2 (Z.ltb_ge maxsize (Z.pos (Pos.min a b)))) by lia.
      rewrite !Z2Nat.inj_pos, take_take, length_take, Pos2Nat.inj_min.
      f_equal. f_equal; [f_equal; lia|].
      repeat case_match;
        repeat match goal with
          | H : (_ <=? _)%nat = true |- _ => apply Nat.leb_le in H
          | H : (_ <=? _)%nat = false |- _ => apply Nat.leb_gt in H
          end; try done; lia.
    + by rewrite (proj2 (Z.ltb_lt maxsize (Z.pos b))) by done.
  - by rewrite (proj2 (Z.ltb_lt maxsize (Z.pos a))) by done.
Qed.

End limiter_more.

(** * Properties of the loaders *)

Section loader_facts.
Context {RT : Runtime} {TX : Text}.

Lemma is_empty_str field : _is_empty (PyStr field) = String.eqb field "".
Proof. unfold _is_empty, py_eq. simpl. by destruct (String.eqb field ""). Qed.

Lemma normalize_diameter_str field :
  _normalize_diameter (PyStr field)
  = Ok (match float_of_str field with
        | Some x => PyFloat x
        | None => PyStr "nan"
        end).
Proof.
  unfold _normalize_diameter. simpl. by destruct (float_of_str field).
Qed.

Lemma py_float_normalized field :
  py_float (match float_of_str field with
            | Some x => PyFloat x
            | None => PyStr "nan"
            end)
  = match row_diameter field with
    | Some x => Ok x
    | None => Raise ValueError
    end.
Proof.
  unfold row_diameter. destruct (float_of_str field); simpl; [done|].
  by destruct (float_of_str "nan").
Qed.

(** What a completed NEO constructor has built. *)
Lemma neo_init_Ok d name diameter hazardous n :
  d ≠ "" →
  NearEarthObject.__init__ (Some d) name diameter hazardous = Ok n →
  ∃ x, py_float diameter = Ok x
       ∧ n = NearEarthObject.mk d name
               (if PrimFloat.is_nan x then PrimFloat.nan else x)
               (py_bool hazardous) []
       ∧ (PrimFloat.is_nan x = true ∨ PrimFloat.ltb PrimFloat.zero x = true).
Proof.
  intros Hd. unfold NearEarthObject.__init__.
  rewrite nonempty_eqb by done.
  destruct (py_float diameter) as [x|e]; simpl; [|done].
  rewrite hazardous_truth_value.
  destruct (PrimFloat.is_nan x) eqn:Hnan.
  - rewrite orb_true_r. intros [= <-]. exists x. rewrite Hnan.
    split; [done|]. split; [by destruct name|by left].
  - rewrite orb_false_r.
    destruct (PrimFloat.ltb PrimFloat.zero x) eqn:Hpos; [|done].
    intros [= <-]. exists x. rewrite Hnan.
    split; [done|]. split; [by destruct name|by right].
Qed.

Lemma neo_init_Raise d name diameter hazardous e :
  d ≠ "" →
  NearEarthObject.__init__ (Some d) name diameter hazardous = Raise e →
  py_float diameter = Raise e ∨ e = AssertionError None.
Proof.
  intros Hd. unfold NearEarthObject.__init__.
  rewrite nonempty_eqb by done.
  destruct (py_float diameter) as [x|e']; simpl; [|intros [= ->]; by left].
  case_match; [done|]. intros [= <-]. by right.
Qed.

(** The loop over the data rows, with what it has collected before. *)
Lemma load_neos_from_Loaded reader i neos out :
  load_neos_from (S i) reader neos = Loaded out →
  ∃ new, out = neos ++ new ∧ Forall2 neo_of_row (filter kept reader) new.
Proof.
  revert i neos. induction reader as [|row rest IH]; intros i neos.
  { intros [= <-]. exists []. by rewrite app_nil_r. }
  cbn [load_neos_from]. unfold item.
  destruct (row !! 3) as [des|] eqn:H3; cbn [mbind loading_bind lift]; [|done].
  rewrite is_empty_str.
  destruct (String.eqb des "") eqn:Hdes.
  { apply String.eqb_eq in Hdes as ->. intros (new & -> & Hnew)%IH.
    exists new. split; [done|]. rewrite filter_cons_False; [done|].
    unfold kept. by rewrite H3; intros []. }
  apply String.eqb_neq in Hdes.
  destruct (row !! 4) as [nm|] eqn:H4; cbn [mbind loading_bind lift]; [|done].
  assert ((if String.eqb nm "" then Loaded None
           else Loaded (Some nm))
          = Loaded (if decide (nm = "") then None else Some nm)) as ->.
  { destruct (String.eqb_spec nm ""); by case_decide. }
  cbn [mbind loading_bind lift].
  destruct (row !! 15) as [dm|] eqn:H15; cbn [mbind loading_bind lift]; [|done].
  rewrite normalize_diameter_str. cbn [mbind loading_bind lift].
  destruct (row !! 7) as [hz|] eqn:H7; cbn [mbind loading_bind lift]; [|done].
  destruct (NearEarthObject.__init__ _ _ _ _) as [n|e] eqn:Hinit; cbn [mbind loading_bind lift];
    [|done].
  apply neo_init_Ok in Hinit as (x & Hx & -> & Hpos); [|done].
  rewrite py_float_normalized in Hx.
  destruct (row_diameter dm) as [x'|] eqn:Hrow; [|done].
  injection Hx as ->.
  intros (new & -> & Hnew)%IH.
  eexists (_ :: new). rewrite <- app_assoc. split; [done|].
  rewrite filter_cons_True by (unfold kept; rewrite H3; by intros [= ->]).
  constructor; [|done].
  split; simpl; try done.
  - by exists nm.
  - by exists dm, x.
  - exists hz. split; [done|]. unfold _normalize_hazardous.
    destruct (String.eqb_spec (str_upper hz) "Y"); simpl.
    + by rewrite bool_decide_eq_true_2.
    + by rewrite bool_decide_eq_false_2.
Qed.

Lemma load_neos_Loaded reader neos :
  load_neos reader = Loaded neos →
  Forall2 neo_of_row (filter kept (tail reader)) neos.
Proof.
  unfold load_neos. destruct reader as [|header rows]; [by intros [= <-]|].
  cbn [load_neos_from tail].
  by intros (new & -> & Hnew)%load_neos_from_Loaded.
Qed.

(** X13: [load_neos] ignores the first row and every row whose
    designation column is empty, and builds one NEO from each other row, in
    the order of the file: its designation is column 3, its name is column 4
    or [None] when that column is empty, its hazard flag tells whether
    column 7 is [Y] up to case, its diameter is the number read from column
    15 (from the text [nan] when the column holds no number), and its
    approaches are empty. *)
Theorem load_neos_row_by_row reader neos :
  load_neos reader = Loaded neos →
  Forall2 neo_of_row (filter kept (tail reader)) neos.
Proof. apply load_neos_Loaded. Qed.

(** X14: every NEO [load_neos] returns has a non-empty designation, a
    name that is [None] or a non-empty string, a diameter that is not a
    number or greater than zero, and no approaches yet. *)
Theorem load_neos_invariants reader neos :
  load_neos reader = Loaded neos →
  Forall (λ n, NearEarthObject.designation n ≠ ""
               ∧ NearEarthObject.name n ≠ Some ""
               ∧ (PrimFloat.is_nan (NearEarthObject.diameter n) = true
                  ∨ PrimFloat.ltb PrimFloat.zero (NearEarthObject.diameter n)
                    = true)
               ∧ NearEarthObject.approaches n = [])
    neos.
Proof.
  unfold load_neos. destruct reader as [|header rows];
    [intros [= <-]; apply Forall_nil_2|].
  cbn [load_neos_from].
  assert (∀ rows i acc out P,
            (∀ d name diameter hazardous n,
               d ≠ "" → name ≠ Some "" →
               NearEarthObject.__init__ (Some d) name diameter hazardous
               = Ok n → P n) →
            Forall P acc →
            load_neos_from (S i) rows acc = Loaded out → Forall P out)
    as Hloop.
  { clear. intros rows. induction rows as [|row rest IH];
      intros i acc out P HP Hacc; [by intros [= <-]|].
    cbn [load_neos_from]. unfold item.
    destruct (row !! 3) as [des|]; cbn [mbind loading_bind lift]; [|done].
    rewrite is_empty_str.
    destruct (String.eqb_spec des "") as [->|Hdes]; [by apply IH|].
    destruct (row !! 4) as [nm|]; cbn [mbind loading_bind lift]; [|done].
    destruct (String.eqb_spec nm "") as [->|Hnm]; cbn [mbind loading_bind lift].
    - destruct (row !! 15) as [dm|]; cbn [mbind loading_bind lift]; [|done].
      rewrite normalize_diameter_str. cbn [mbind loading_bind lift].
      destruct (row !! 7) as [hz|]; cbn [mbind loading_bind lift]; [|done].
      destruct (NearEarthObject.__init__ _ _ _ _) as [n|e] eqn:Hinit; cbn [mbind loading_bind lift];
        [|done].
      apply IH; [done|]. apply Forall_app. split; [done|].
      apply Forall_singleton. eapply HP; [| |exact Hinit]; done.
    - destruct (row !! 15) as [dm|]; cbn [mbind loading_bind lift]; [|done].
      rewrite normalize_diameter_str. cbn [mbind loading_bind lift].
      destruct (row !! 7) as [hz|]; cbn [mbind loading_bind lift]; [|done].
      destruct (NearEarthObject.__init__ _ _ _ _) as [n|e] eqn:Hinit; cbn [mbind loading_bind lift];
        [|done].
      apply IH; [done|]. apply Forall_app. split; [done|].
      apply Forall_singleton.
      eapply HP; [| |exact Hinit]; [done|]. by intros [= ->]. }
  apply Hloop; [|apply Forall_nil_2].
  intros d name diameter hazardous n Hd Hname
    (x & _ & -> & Hpos)%neo_init_Ok; [|done].
  simpl. split; [done|]. split; [done|]. split; [|done].
  destruct (PrimFloat.is_nan x) eqn:Hnan; [by left|].
  destruct Hpos as [?|?]; [done|by right].
Qed.

Lemma load_neos_from_Failed reader i neos e :
  is_Some (float_of_str "nan") →
  load_neos_from (S i) reader neos = Failed e →
  e = IndexError ∨ e = Raised (AssertionError None).
Proof.
  intros [y Hy]. revert i neos.
  induction reader as [|row rest IH]; intros i neos; [done|].
  cbn [load_neos_from]. unfold item.
  destruct (row !! 3) as [des|]; cbn [mbind loading_bind lift];
    [|intros [= <-]; by left].
  rewrite is_empty_str.
  destruct (String.eqb_spec des "") as [->|Hdes]; [apply IH|].
  destruct (row !! 4) as [nm|]; cbn [mbind loading_bind lift];
    [|intros [= <-]; by left].
  assert (∃ name, (if String.eqb nm "" then Loaded None
                   else Loaded (Some nm)) = Loaded name) as [name ->]
    by (destruct (String.eqb nm ""); by eexists).
  cbn [mbind loading_bind lift].
  destruct (row !! 15) as [dm|]; cbn [mbind loading_bind lift];
    [|intros [= <-]; by left].
  rewrite normalize_diameter_str. cbn [mbind loading_bind lift].
  destruct (row !! 7) as [hz|]; cbn [mbind loading_bind lift];
    [|intros [= <-]; by left].
  destruct (NearEarthObject.__init__ _ _ _ _) as [n|e'] eqn:Hinit;
    cbn [mbind loading_bind lift]; [apply IH|].
  intros [= <-]. right. f_equal.
  apply neo_init_Raise in Hinit as [Hfloat|?]; [|done|done].
  rewrite py_float_normalized in Hfloat. unfold row_diameter in Hfloat.
  destruct (float_of_str dm); [done|]. by rewrite Hy in Hfloat.
Qed.

(** X15: given the rows [csv.reader] yields from the file (opening and
    reading the file are outside this development, and so are their
    failures), and when [float()] reads the text [nan], the body of the
    loop of [load_neos] fails in two ways only: with [IndexError] on a row
    too short, or on the diameter assertion of the constructor, for a
    diameter that is a number not greater than zero.  It never fails on the
    designation assertion or in the conversion of a diameter. *)
Theorem load_neos_failures reader e :
  is_Some (float_of_str "nan") →
  load_neos reader = Failed e →
  e = IndexError ∨ e = Raised (AssertionError None).
Proof.
  intros Hnan. unfold load_neos. destruct reader as [|header rows]; [done|].
  cbn [load_neos_from]. by apply load_neos_from_Failed.
Qed.

(** X16: when [float()] reads the text [nan] as not-a-number, a kept row
    whose diameter column holds no number (an empty column, say) gives a
    NEO whose diameter is not-a-number. *)
Theorem load_neos_unknown_diameter reader neos :
  (∃ x, float_of_str "nan" = Some x ∧ PrimFloat.is_nan x = true) →
  load_neos reader = Loaded neos →
  Forall2
    (λ row n, ∀ field, row !! 15 = Some field → float_of_str field = None →
                       NearEarthObject.diameter n = PrimFloat.nan)
    (filter kept (tail reader)) neos.
Proof.
  intros (x & Hx & Hnan) Hload%load_neos_Loaded.
  eapply Forall2_impl; [exact Hload|].
  intros row n [_ _ (field & y & H15 & Hrow & Hdiam) _ _] field' H15' Hnone.
  rewrite H15 in H15'. injection H15' as <-.
  unfold row_diameter in Hrow. rewrite Hnone, Hx in Hrow.
  injection Hrow as <-. by rewrite Hdiam, Hnan.
Qed.

(** What a completed approach constructor has built. *)
Lemma approach_init_Ok d time distance velocity a :
  CloseApproach.__init__ (Some d) time distance velocity = Ok a →
  d ≠ ""
  ∧ ∃ tm x y, cd_to_datetime time = Some tm
              ∧ py_float distance = Ok x
              ∧ py_float velocity = Ok y
              ∧ a = CloseApproach.mk d tm x y None.
Proof.
  unfold CloseApproach.__init__.
  destruct (String.eqb_spec d "") as [->|Hd]; [done|].
  destruct (cd_to_datetime time) as [tm|]; [|done].
  destruct (py_float distance) as [x|]; simpl; [|done].
  destruct (py_float velocity) as [y|]; simpl; [|done].
  intros [= <-]. split; [done|]. by exists tm, x, y.
Qed.

Lemma py_float_str field x :
  py_float (PyStr field) = Ok x → float_of_str field = Some x.
Proof. simpl. destruct (float_of_str field); [by intros [= ->]|done]. Qed.

Lemma load_approaches_from_Loaded data cas out :
  load_approaches_from data cas = Loaded out →
  ∃ new, out = cas ++ new
         ∧ Forall2 approach_of_row data new
         ∧ Forall (λ a, CloseApproach.designation a ≠ "") new.
Proof.
  revert cas. induction data as [|row rest IH]; intros cas.
  { intros [= <-]. exists []. rewrite app_nil_r. by repeat split. }
  cbn [load_approaches_from]. unfold item.
  destruct (row !! 0) as [des|] eqn:H0; cbn [mbind loading_bind lift];
    [|done].
  destruct (row !! 3) as [tm|] eqn:H3; cbn [mbind loading_bind lift]; [|done].
  destruct (row !! 4) as [dist|] eqn:H4; cbn [mbind loading_bind lift];
    [|done].
  destruct (row !! 7) as [vel|] eqn:H7; cbn [mbind loading_bind lift];
    [|done].
  destruct (CloseApproach.__init__ _ _ _ _) as [a|e] eqn:Hinit;
    cbn [mbind loading_bind lift]; [|done].
  apply approach_init_Ok in Hinit
    as (Hdes & t & x & y & Ht & Hx%py_float_str & Hy%py_float_str & ->).
  intros (new & -> & Hnew & Hne)%IH.
  eexists (_ :: new). rewrite <- app_assoc. split; [done|]. split.
  - constructor; [|done]. split; simpl; try done; by eexists.
  - by constructor.
Qed.

(** X17: [load_approaches] builds one approach from every row, none
    skipped, in the order of the data: its designation is column 0
    stripped and is not empty, its time is read from column 3, its distance
    and velocity from columns 4 and 7 stripped, and its [neo] is [None]. *)
Theorem load_approaches_row_by_row data approaches :
  load_approaches data = Loaded approaches →
  Forall2 approach_of_row data approaches
  ∧ Forall (λ a, CloseApproach.designation a ≠ "") approaches.
Proof.
  unfold load_approaches.
  by intros (new & -> & Hnew & Hne)%load_approaches_from_Loaded.
Qed.

End loader_facts.

(** * Properties of the writer *)

Lemma is_nan_eq x : PrimFloat.is_nan x = true → x = PrimFloat.nan.
Proof.
  intros Hnan%is_nan_spec. apply FloatAxioms.Prim2SF_inj. by rewrite Hnan.
Qed.

(** The guard [serialize] puts on the diameter changes nothing. *)
Lemma nan_guard x :
  (if negb (PrimFloat.is_nan x) then x else PrimFloat.nan) = x.
Proof.
  destruct (PrimFloat.is_nan x) eqn:Hnan; simpl; [|done].
  symmetry. by apply is_nan_eq.
Qed.

(** A loop that appends one row per item collects the rows of all items,
    or stops at the first item that has none. *)
Lemma for_each_rows {A R} (make : A → result R)
    (body : list R → A → result (list R)) items acc out :
  (∀ acc x, body acc x = make x ≫= λ row, Ok (acc ++ [row])) →
  for_each items body acc = Ok out
  ↔ ∃ rows, out = acc ++ rows ∧ Forall2 (λ x row, make x = Ok row) items rows.
Proof.
  intros Hbody. revert acc. induction items as [|x items IH]; intros acc.
  - simpl. split.
    + intros [= <-]. exists []. by rewrite app_nil_r.
    + intros (rows & -> & ->%Forall2_nil_inv_l). by rewrite app_nil_r.
  - cbn [for_each]. rewrite Hbody. destruct (make x) as [row|e] eqn:Hx; simpl.
    + rewrite IH. split.
      * intros (rows & -> & Hrows). exists (row :: rows).
        rewrite <- app_assoc. split; [done|]. by constructor.
      * intros (rows & -> & (row' & rows' & Hrow & Hrows & ->)%Forall2_cons_inv_l).
        rewrite Hx in Hrow. injection Hrow as <-.
        exists rows'. by rewrite <- app_assoc.
    + split; [done|].
      intros (rows & _ & (row' & rows' & Hrow & _)%Forall2_cons_inv_l).
      by rewrite Hx in Hrow.
Qed.

Section writer_facts.
Context {RT : Runtime} {TX : Text}.

Lemma csv_row_made h app row :
  (get_neo_model h app "csv" ≫= λ neo_model,
     dict_get "neo" neo_model ≫= λ neo,
       as_mapping neo ≫= λ neo,
         Ok (dict_merge neo (get_ca_model h app))) = Ok row
  ↔ row_of h csv_row app row.
Proof.
  unfold get_neo_model, row_of.
  destruct (CloseApproach.neo (approach_at h app)) as [r|]; simpl.
  - rewrite nan_guard. unfold dict_merge, get_ca_model, csv_row. simpl.
    replace (match NearEarthObject.name (neo_at h r) with
             | Some nm => nm
             | None => ""
             end) with (default "" (NearEarthObject.name (neo_at h r)))
      by by destruct (NearEarthObject.name (neo_at h r)).
    split; [intros [= <-]; by exists r|by intros (? & [= <-] & ->)].
  - split; [done|by intros (? & ? & _)].
Qed.

Lemma json_row_made h app row :
  (get_neo_model h app "json" ≫= λ neo_model,
     Ok (dict_merge (get_ca_model h app) neo_model)) = Ok row
  ↔ row_of h json_row app row.
Proof.
  unfold get_neo_model, row_of.
  destruct (CloseApproach.neo (approach_at h app)) as [r|]; simpl.
  - rewrite nan_guard. unfold dict_merge, get_ca_model, json_row. simpl.
    replace (match NearEarthObject.name (neo_at h r) with
             | Some nm => nm
             | None => ""
             end) with (default "" (NearEarthObject.name (neo_at h r)))
      by by destruct (NearEarthObject.name (neo_at h r)).
    split; [intros [= <-]; by exists r|by intros (? & [= <-] & ->)].
  - split; [done|by intros (? & ? & _)].
Qed.

Lemma for_in_Ok {A B} (g : generator A) (body : B → A → result B) acc out :
  for_in g body acc = Ok out
  ↔ raised g = None ∧ for_each (yielded g) body acc = Ok out.
Proof.
  unfold for_in. destruct (for_each (yielded g) body acc) as [x|e]; simpl.
  - destruct (raised g); split; try done; by intros [? ?].
  - split; [done|by intros [_ ?]].
Qed.

Lemma serialize_csv_Ok h g format rows :
  str_lower format = "csv" →
  serialize h g format = Ok rows
  ↔ raised g = None ∧ Forall2 (row_of h csv_row) (yielded g) rows.
Proof.
  intros Hfmt. unfold serialize. rewrite Hfmt.
  rewrite decide_True by set_solver. simpl.
  rewrite bind_Ok. setoid_rewrite for_in_Ok.
  setoid_rewrite (for_each_rows
    (λ app, get_neo_model h app "csv" ≫= λ neo_model,
              dict_get "neo" neo_model ≫= λ neo,
                as_mapping neo ≫= λ neo,
                  Ok (dict_merge neo (get_ca_model h app)))).
  2:{ intros acc app. destruct (get_neo_model h app "csv") as [m|]; simpl;
        [|done].
      destruct (dict_get "neo" m) as [v|]; simpl; [|done].
      by destruct (as_mapping v). }
  split.
  - intros (out & (Hnone & rows' & -> & Hrows) & [= <-]).
    split; [done|]. eapply Forall2_impl; [done|].
    intros app row. by rewrite csv_row_made.
  - intros [Hnone Hrows]. exists rows. split; [|done]. split; [done|].
    exists rows. split; [done|]. eapply Forall2_impl; [done|].
    intros app row. by rewrite csv_row_made.
Qed.

Lemma serialize_json_Ok h g format rows :
  str_lower format = "json" →
  serialize h g format = Ok rows
  ↔ raised g = None ∧ Forall2 (row_of h json_row) (yielded g) rows.
Proof.
  intros Hfmt. unfold serialize. rewrite Hfmt.
  rewrite decide_True by set_solver. simpl.
  rewrite bind_Ok. setoid_rewrite for_in_Ok.
  setoid_rewrite (for_each_rows
    (λ app, get_neo_model h app "json" ≫= λ neo_model,
              Ok (dict_merge (get_ca_model h app) neo_model))).
  2:{ intros acc app. by destruct (get_neo_model h app "json"). }
  split.
  - intros (out & (Hnone & rows' & -> & Hrows) & [= <-]).
    split; [done|]. eapply Forall2_impl; [done|].
    intros app row. by rewrite json_row_made.
  - intros [Hnone Hrows]. exists rows. split; [|done]. split; [done|].
    exists rows. split; [done|]. eapply Forall2_impl; [done|].
    intros app row. by rewrite json_row_made.
Qed.

(** X18: for the format [csv], in any letter case, [serialize] returns
    rows exactly when its input ends without an exception and every
    approach is linked to its NEO; there is then one row per approach, in
    order, holding the NEO's designation, its name (the empty string for
    [None]), its diameter unchanged, the hazard flag as the text [True] or
    [False], and the approach's time, distance and velocity. *)
Theorem serialize_csv h g format rows :
  str_lower format = "csv" →
  serialize h g format = Ok rows
  ↔ raised g = None ∧ Forall2 (row_of h csv_row) (yielded g) rows.
Proof. apply serialize_csv_Ok. Qed.

(** X19: for the format [json], in any letter case, [serialize] returns
    rows exactly when its input ends without an exception and every
    approach is linked to its NEO; there is then one row per approach, in
    order, holding the approach's time, distance and velocity and, nested
    under [neo], the NEO's designation, name (the empty string for [None]),
    diameter unchanged and hazard flag as a boolean. *)
Theorem serialize_json h g format rows :
  str_lower format = "json" →
  serialize h g format = Ok rows
  ↔ raised g = None ∧ Forall2 (row_of h json_row) (yielded g) rows.
Proof. apply serialize_json_Ok. Qed.

(** X20: every row [serialize] builds for [csv] has exactly the columns
    [write_to_csv] declares, each once. *)
Theorem csv_rows_have_the_declared_columns h g format rows :
  str_lower format = "csv" →
  serialize h g format = Ok rows →
  Forall (λ row, row.*1 ≡ₚ fieldnames) rows.
Proof.
  intros Hfmt [_ Hrows]%serialize_csv_Ok; [|done].
  induction Hrows as [|app row apps rows (r & _ & ->) _ IH]; constructor;
    [|done].
  unfold csv_row, fieldnames. simpl.
  apply (Permutation_app_comm [_; _; _; _] [_; _; _]).
Qed.

(** X21: a format that is neither [csv] nor [json] up to case is refused
    on the assertion, whatever the approaches are: nothing is iterated and
    no row is built. *)
Theorem serialize_unsupported_format h g format :
  str_lower format ≠ "csv" →
  str_lower format ≠ "json" →
  serialize h g format = Raise unsupported_format.
Proof.
  intros Hcsv Hjson. unfold serialize.
  rewrite decide_False; [done|].
  rewrite elem_of_union, !elem_of_singleton. tauto.
Qed.

End writer_facts.

(** * From the query to the rows *)

Lemma limit_Ok `{Platform} {A} (g g' : generator A) n :
  limit g n = Ok g' →
  yielded g' `prefix_of` yielded g ∧ (raised g = None → raised g' = None).
Proof.
  unfold limit, islice. destruct n as [n|]; [|by intros [= <-]].
  destruct (n =? 0)%Z; [by intros [= <-]|].
  destruct ((n <? 0)%Z || (maxsize <? n)%Z); [done|].
  intros [= <-]. simpl. split.
  - exists (drop (Z.to_nat n) (yielded g)). by rewrite take_drop.
  - intros ->. by case_match.
Qed.

Lemma rows_of_linked `{Text} h
    (make : NearEarthObject.t → CloseApproach.t → list (string * jvalue))
    (items : list ref) :
  Forall (λ a, is_Some (CloseApproach.neo (approach_at h a))) items →
  ∃ rows, Forall2 (row_of h make) items rows.
Proof.
  induction 1 as [|a items [r Hr] _ [rows IH]]; [by exists []|].
  exists (make (neo_at h r) (approach_at h a) :: rows).
  constructor; [by exists r|done].
Qed.

Section pipeline.
Context {RT : Runtime} {TX : Text} {PF : Platform}.

(** X22: what a query with filters of the five subclasses yields on a
    constructed database, capped by [limit] or not, [serialize] turns into
    rows for either format without failing, one row per approach. *)
Theorem query_results_can_be_written h neos approaches db h'
    (fs : list AttributeFilter.t) n g format :
  NEODatabase.__init__ h neos approaches = Ok (db, h') →
  Forall (λ f, AttributeFilter.cls f ≠ AttributeFilter_ ∧ comparable f = true)
    fs →
  limit (NEODatabase.query db (AttributeFilter.__call__ <$> fs) h') n = Ok g →
  str_lower format = "csv" ∨ str_lower format = "json" →
  ∃ rows, serialize h' g format = Ok rows
          ∧ length rows = length (yielded g).
Proof.
  intros Hinit Hfs Hlimit Hfmt.
  rewrite (query_constructed _ _ _ _ _ _ Hinit Hfs) in Hlimit.
  apply limit_Ok in Hlimit as [Hprefix Hraised]. simpl in *.
  assert (Forall (λ a, is_Some (CloseApproach.neo (approach_at h' a)))
            (yielded g)) as Hlinked.
  { apply Forall_forall. intros a Ha.
    eapply constructed_linked; [done|].
    destruct Hprefix as [rest Hrest].
    assert (a ∈ yielded g ++ rest) as Hin
      by (apply elem_of_app; by left).
    rewrite <- Hrest in Hin. by apply list_elem_of_filter in Hin as [_ ?]. }
  destruct Hfmt as [Hfmt|Hfmt].
  - destruct (rows_of_linked h' csv_row _ Hlinked) as [rows Hrows].
    exists rows. split; [|by erewrite <- Forall2_length].
    apply serialize_csv_Ok; [done|]. split; [by apply Hraised|done].
  - destruct (rows_of_linked h' json_row _ Hlinked) as [rows Hrows].
    exists rows. split; [|by erewrite <- Forall2_length].
    apply serialize_json_Ok; [done|]. split; [by apply Hraised|done].
Qed.

End pipeline.

(** * Closed instances of the further properties *)

Section database_examples.
#[local] Existing Instance example_runtime.
#[local] Existing Instance example_text.

Lemma construction_writes_links_only_witness :
  NEODatabase.__init__ example_heap [0; 1; 2] [0; 1; 2]
  = Ok (example_db, example_linked_heap)
  ∧ same_attributes example_heap example_linked_heap
  ∧ (∀ a, a ∉ [0; 1; 2] →
          approach_at example_linked_heap a = approach_at example_heap a)
  ∧ (∀ r, r ∉ [0; 1; 2] →
          neo_at example_linked_heap r = neo_at example_heap r)
  ∧ (∀ r, NearEarthObject.approaches (neo_at example_heap r)
          `prefix_of`
          NearEarthObject.approaches (neo_at example_linked_heap r)).
Proof.
  split; [exact example_construction_Ok|].
  exact (construction_writes_links_only example_heap [0; 1; 2] [0; 1; 2]
           example_db example_linked_heap example_construction_Ok).
Defined.

Lemma example_in_neos : 2 ∈ [0; 1; 2].
Proof. set_solver. Qed.

Lemma lookup_by_designation_finds_neo_witness :
  NEODatabase.__init__ example_heap [0; 1; 2] [0; 1; 2]
  = Ok (example_db, example_linked_heap)
  ∧ unique_designations example_heap [0; 1; 2]
  ∧ 2 ∈ [0; 1; 2]
  ∧ NEODatabase.get_neo_by_designation example_db
      (NearEarthObject.designation (neo_at example_linked_heap 2))
    = Some 2.
Proof.
  split; [exact example_construction_Ok|]. split; [exact example_unique|].
  split; [exact example_in_neos|].
  exact (lookup_by_designation_finds_neo example_heap [0; 1; 2] [0; 1; 2]
           example_db example_linked_heap 2 example_construction_Ok
           example_unique example_in_neos).
Defined.

Lemma example_eros_name r' :
  r' ∈ [0; 1; 2] →
  name_key example_heap r' = name_key example_heap 0 → r' = 0.
Proof.
  rewrite !elem_of_cons, elem_of_nil. by intros [-> | [-> | [-> | []]]].
Qed.

Lemma example_eros_in_neos : 0 ∈ [0; 1; 2].
Proof. set_solver. Qed.

Lemma lookup_by_name_finds_neo_witness :
  NEODatabase.__init__ example_heap [0; 1; 2] [0; 1; 2]
  = Ok (example_db, example_linked_heap)
  ∧ (∀ r', r' ∈ [0; 1; 2] →
           name_key example_heap r' = name_key example_heap 0 → r' = 0)
  ∧ 0 ∈ [0; 1; 2]
  ∧ NearEarthObject.name (neo_at example_linked_heap 0) = Some "Eros"
  ∧ NEODatabase.get_neo_by_name example_db "Eros" = Some 0.
Proof.
  split; [exact example_construction_Ok|]. split; [exact example_eros_name|].
  split; [exact example_eros_in_neos|]. split; [reflexivity|].
  exact (lookup_by_name_finds_neo example_heap [0; 1; 2] [0; 1; 2]
           example_db example_linked_heap 0 "Eros" example_construction_Ok
           example_eros_name example_eros_in_neos eq_refl).
Defined.

Lemma links_are_mutual_witness :
  NEODatabase.__init__ example_heap [0; 1; 2] [0; 1; 2]
  = Ok (example_db, example_linked_heap)
  ∧ NearEarthObject.approaches (neo_at example_heap 1) = []
  ∧ (1 ∈ NearEarthObject.approaches (neo_at example_linked_heap 1)
     ↔ 1 ∈ [0; 1; 2]
       ∧ CloseApproach.neo (approach_at example_linked_heap 1) = Some 1).
Proof.
  split; [exact example_construction_Ok|]. split; [reflexivity|].
  exact (links_are_mutual example_heap [0; 1; 2] [0; 1; 2]
           example_db example_linked_heap 1 1 example_construction_Ok eq_refl).
Defined.

Lemma second_construction_appends_again_witness :
  NEODatabase.__init__ example_heap [0; 1; 2] [0; 1; 2]
  = Ok (example_db, example_linked_heap)
  ∧ ∃ h2,
      NEODatabase.__init__ example_linked_heap [0; 1; 2] [0; 1; 2]
      = Ok (example_db, h2)
      ∧ ∀ r, ∃ added,
          NearEarthObject.approaches (neo_at example_linked_heap r)
          = NearEarthObject.approaches (neo_at example_heap r) ++ added
          ∧ NearEarthObject.approaches (neo_at h2 r)
            = NearEarthObject.approaches (neo_at example_heap r)
              ++ added ++ added.
Proof.
  split; [exact example_construction_Ok|].
  exact (second_construction_appends_again example_heap [0; 1; 2] [0; 1; 2]
           example_db example_linked_heap example_construction_Ok).
Defined.

(** Built twice over the same objects, Eros has its one approach twice. *)
Example example_second_construction :
  ∃ db h2,
    NEODatabase.__init__ example_linked_heap [0; 1; 2] [0; 1; 2] = Ok (db, h2)
    ∧ NearEarthObject.approaches (neo_at h2 0) = [0; 0].
Proof. eexists _, _. split; [reflexivity|]. by vm_compute. Qed.

Lemma example_query_ends :
  raised (NEODatabase.query example_db
            (AttributeFilter.__call__ <$> example_filters)
            example_linked_heap) = None.
Proof. by vm_compute. Qed.

Lemma query_without_error_is_complete_witness :
  raised (NEODatabase.query example_db
            (AttributeFilter.__call__ <$> example_filters)
            example_linked_heap) = None
  ∧ yielded (NEODatabase.query example_db
               (AttributeFilter.__call__ <$> example_filters)
               example_linked_heap)
    = filter
        (λ a, Forall (λ f : callable, f example_linked_heap a = Ok true)
                (AttributeFilter.__call__ <$> example_filters))
        (NEODatabase._approaches example_db).
Proof.
  split; [exact example_query_ends|].
  exact (query_without_error_is_complete example_db
           (AttributeFilter.__call__ <$> example_filters)
           example_linked_heap example_query_ends).
Defined.

(** Behind the distance filters, which reject approaches 1 and 2, a
    filter that raises on every approach it is called on is only called on
    approach 0. *)
Lemma query_app_witness :
  raised (NEODatabase.query example_db
            (AttributeFilter.__call__ <$> example_filters)
            example_linked_heap) = None
  ∧ NEODatabase.query example_db
      ((AttributeFilter.__call__ <$> example_filters)
       ++ [AttributeFilter.__call__
             (AttributeFilter.mk AttributeFilter_ op_eq PyNone)])
      example_linked_heap
    = NEODatabase.query_from
        (yielded (NEODatabase.query example_db
                    (AttributeFilter.__call__ <$> example_filters)
                    example_linked_heap))
        [AttributeFilter.__call__
           (AttributeFilter.mk AttributeFilter_ op_eq PyNone)]
        example_linked_heap.
Proof.
  split; [exact example_query_ends|].
  exact (query_app example_db (AttributeFilter.__call__ <$> example_filters)
           [AttributeFilter.__call__
              (AttributeFilter.mk AttributeFilter_ op_eq PyNone)]
           example_linked_heap example_query_ends).
Defined.

Lemma example_number : is_Some (as_number (PyFloat 100%float)).
Proof. by eexists. Qed.

Lemma unknown_diameter_meets_no_bound_witness :
  CloseApproach.neo (approach_at example_linked_heap 2) = Some 2
  ∧ PrimFloat.is_nan (NearEarthObject.diameter (neo_at example_linked_heap 2))
    = true
  ∧ is_Some (as_number (PyFloat 100%float))
  ∧ AttributeFilter.__call__
      (AttributeFilter.mk DiameterFilter op_le (PyFloat 100%float))
      example_linked_heap 2
    = Ok false.
Proof.
  split; [reflexivity|]. split; [reflexivity|]. split; [exact example_number|].
  exact (unknown_diameter_meets_no_bound example_linked_heap 2 2 op_le
           (PyFloat 100%float) eq_refl eq_refl example_number).
Defined.

Lemma query_by_criteria_witness :
  NEODatabase.__init__ example_heap [0; 1; 2] [0; 1; 2]
  = Ok (example_db, example_linked_heap)
  ∧ ∃ filters,
      create_filters (of_date None) (of_date (Some (Date 2020 1 1)))
        (of_date None) (of_float (Some 0.1%float)) (of_float None)
        (of_float None) (of_float None) (of_float None) (of_float None)
        (of_bool (Some false))
      = Ok filters
      ∧ NEODatabase.query example_db (AttributeFilter.__call__ <$> filters)
          example_linked_heap
        = Generator
            (filter
               (λ a, meets_criteria example_linked_heap None
                       (Some (Date 2020 1 1)) None (Some 0.1%float) None
                       None None None None (Some false) a = true)
               [0; 1; 2])
            None.
Proof.
  split; [exact example_construction_Ok|].
  exact (query_by_criteria example_heap [0; 1; 2] [0; 1; 2] example_db
           example_linked_heap None (Some (Date 2020 1 1)) None
           (Some 0.1%float) None None None None None (Some false)
           example_construction_Ok).
Defined.

(** From 2020 on, at 0.1 au or more, not hazardous: Eros only (Apophis
    is hazardous, the third approach is nearer). *)
Example example_meets_criteria :
  filter
    (λ a, meets_criteria example_linked_heap None (Some (Date 2020 1 1)) None
            (Some 0.1%float) None None None None None (Some false) a = true)
    [0; 1; 2]
  = [0].
Proof. by vm_compute. Qed.

End database_examples.

Section loader_examples.
#[local] Existing Instance table_runtime.
#[local] Existing Instance example_text.

(** The header and the row without designation give nothing; the last
    row has no name and no diameter. *)
Lemma example_load_neos :
  load_neos example_neo_rows
  = Loaded [eros; NearEarthObject.mk "2020 AB" None PrimFloat.nan true []].
Proof. reflexivity. Qed.

Lemma load_neos_row_by_row_witness :
  load_neos example_neo_rows
  = Loaded [eros; NearEarthObject.mk "2020 AB" None PrimFloat.nan true []]
  ∧ Forall2 neo_of_row (filter kept (tail example_neo_rows))
      [eros; NearEarthObject.mk "2020 AB" None PrimFloat.nan true []].
Proof.
  split; [exact example_load_neos|].
  exact (load_neos_row_by_row example_neo_rows _ example_load_neos).
Defined.

Lemma load_neos_invariants_witness :
  load_neos example_neo_rows
  = Loaded [eros; NearEarthObject.mk "2020 AB" None PrimFloat.nan true []]
  ∧ Forall (λ n, NearEarthObject.designation n ≠ ""
                 ∧ NearEarthObject.name n ≠ Some ""
                 ∧ (PrimFloat.is_nan (NearEarthObject.diameter n) = true
                    ∨ PrimFloat.ltb PrimFloat.zero
                        (NearEarthObject.diameter n) = true)
                 ∧ NearEarthObject.approaches n = [])
      [eros; NearEarthObject.mk "2020 AB" None PrimFloat.nan true []].
Proof.
  split; [exact example_load_neos|].
  exact (load_neos_invariants example_neo_rows _ example_load_neos).
Defined.

Lemma example_reads_nan : is_Some (float_of_str "nan").
Proof. by eexists. Qed.

(** A diameter of zero stops the load on the constructor's assertion. *)
Lemma example_load_zero_diameter :
  load_neos zero_diameter_rows = Failed (Raised (AssertionError None)).
Proof. reflexivity. Qed.

Lemma load_neos_failures_witness :
  is_Some (float_of_str "nan")
  ∧ load_neos zero_diameter_rows = Failed (Raised (AssertionError None))
  ∧ (Raised (AssertionError None) = IndexError
     ∨ Raised (AssertionError None) = Raised (AssertionError None)).
Proof.
  split; [exact example_reads_nan|]. split; [exact example_load_zero_diameter|].
  exact (load_neos_failures zero_diameter_rows _ example_reads_nan
           example_load_zero_diameter).
Defined.

Lemma example_reads_nan_as_nan :
  ∃ x, float_of_str "nan" = Some x ∧ PrimFloat.is_nan x = true.
Proof. by exists PrimFloat.nan. Qed.

Lemma load_neos_unknown_diameter_witness :
  (∃ x, float_of_str "nan" = Some x ∧ PrimFloat.is_nan x = true)
  ∧ load_neos example_neo_rows
    = Loaded [eros; NearEarthObject.mk "2020 AB" None PrimFloat.nan true []]
  ∧ Forall2
      (λ row n, ∀ field, row !! 15 = Some field → float_of_str field = None →
                         NearEarthObject.diameter n = PrimFloat.nan)
      (filter kept (tail example_neo_rows))
      [eros; NearEarthObject.mk "2020 AB" None PrimFloat.nan true []].
Proof.
  split; [exact example_reads_nan_as_nan|]. split; [exact example_load_neos|].
  exact (load_neos_unknown_diameter example_neo_rows _
           example_reads_nan_as_nan example_load_neos).
Defined.

Lemma example_load_approaches :
  load_approaches example_approach_rows = Loaded [eros_2020].
Proof. reflexivity. Qed.

Lemma load_approaches_row_by_row_witness :
  load_approaches example_approach_rows = Loaded [eros_2020]
  ∧ Forall2 approach_of_row example_approach_rows [eros_2020]
  ∧ Forall (λ a, CloseApproach.designation a ≠ "") [eros_2020].
Proof.
  split; [exact example_load_approaches|].
  exact (load_approaches_row_by_row example_approach_rows _
           example_load_approaches).
Defined.

(** An approach row without designation stops the load, where a NEO row
    without designation is skipped. *)
Example example_load_approaches_empty_designation :
  load_approaches
    (example_approach_rows
     ++ [["  "; "1"; "2458849.5"; "2020-Jan-01 00:00"; "0.15"; ""; ""; "5.2"]])
  = Failed (Raised (designation_required (Some ""))).
Proof. reflexivity. Qed.

End loader_examples.

Section writer_examples.
#[local] Existing Instance example_runtime.
#[local] Existing Instance example_text.
#[local] Existing Instance example_platform.

Lemma example_csv : str_lower "CSV" = "csv".
Proof. reflexivity. Qed.

Lemma example_json : str_lower "Json" = "json".
Proof. reflexivity. Qed.

Lemma example_serialize_csv :
  serialize example_linked_heap (Generator [0] None) "CSV"
  = Ok [csv_row (neo_at example_linked_heap 0)
          (approach_at example_linked_heap 0)].
Proof. reflexivity. Qed.

Lemma serialize_csv_witness :
  str_lower "CSV" = "csv"
  ∧ (serialize example_linked_heap (Generator [0] None) "CSV"
     = Ok [csv_row (neo_at example_linked_heap 0)
             (approach_at example_linked_heap 0)]
     ↔ raised (Generator [0] None) = None
       ∧ Forall2 (row_of example_linked_heap csv_row)
           (yielded (Generator [0] None))
           [csv_row (neo_at example_linked_heap 0)
              (approach_at example_linked_heap 0)]).
Proof.
  split; [exact example_csv|].
  exact (serialize_csv example_linked_heap (Generator [0] None) "CSV" _
           example_csv).
Defined.

Lemma serialize_json_witness :
  str_lower "Json" = "json"
  ∧ (serialize example_linked_heap (Generator [0] None) "Json"
     = Ok [json_row (neo_at example_linked_heap 0)
             (approach_at example_linked_heap 0)]
     ↔ raised (Generator [0] None) = None
       ∧ Forall2 (row_of example_linked_heap json_row)
           (yielded (Generator [0] None))
           [json_row (neo_at example_linked_heap 0)
              (approach_at example_linked_heap 0)]).
Proof.
  split; [exact example_json|].
  exact (serialize_json example_linked_heap (Generator [0] None) "Json" _
           example_json).
Defined.

Lemma csv_rows_have_the_declared_columns_witness :
  str_lower "CSV" = "csv"
  ∧ serialize example_linked_heap (Generator [0] None) "CSV"
    = Ok [csv_row (neo_at example_linked_heap 0)
            (approach_at example_linked_heap 0)]
  ∧ Forall (λ row, row.*1 ≡ₚ fieldnames)
      [csv_row (neo_at example_linked_heap 0)
         (approach_at example_linked_heap 0)].
Proof.
  split; [exact example_csv|]. split; [exact example_serialize_csv|].
  exact (csv_rows_have_the_declared_columns example_linked_heap
           (Generator [0] None) "CSV" _ example_csv example_serialize_csv).
Defined.

Lemma example_not_csv : str_lower "xml" ≠ "csv".
Proof. discriminate. Qed.

Lemma example_not_json : str_lower "xml" ≠ "json".
Proof. discriminate. Qed.

Lemma serialize_unsupported_format_witness :
  (str_lower "xml" = "csv" → False)
  ∧ (str_lower "xml" = "json" → False)
  ∧ serialize example_linked_heap (Generator [0] None) "xml"
    = Raise unsupported_format.
Proof.
  split; [exact example_not_csv|]. split; [exact example_not_json|].
  exact (serialize_unsupported_format example_linked_heap (Generator [0] None)
           "xml" example_not_csv example_not_json).
Defined.

(** Before linking, the rows cannot be built. *)
Example example_serialize_unlinked :
  serialize example_heap (Generator [0] None) "csv" = Raise AttributeError
  ∧ serialize example_heap (Generator [0] None) "json" = Raise AttributeError.
Proof. split; reflexivity. Qed.

Lemma example_filters_comparable :
  Forall (λ f, AttributeFilter.cls f ≠ AttributeFilter_ ∧ comparable f = true)
    example_filters.
Proof. repeat constructor; done. Qed.

Lemma example_limit_query :
  limit (NEODatabase.query example_db
           (AttributeFilter.__call__ <$> example_filters) example_linked_heap)
    (Some 1%Z)
  = Ok (Generator [0] None).
Proof. vm_compute. reflexivity. Qed.

Lemma example_json_format : str_lower "Json" = "csv" ∨ str_lower "Json" = "json".
Proof. by right. Qed.

Lemma query_results_can_be_written_witness :
  NEODatabase.__init__ example_heap [0; 1; 2] [0; 1; 2]
  = Ok (example_db, example_linked_heap)
  ∧ Forall (λ f, AttributeFilter.cls f ≠ AttributeFilter_
                 ∧ comparable f = true) example_filters
  ∧ limit (NEODatabase.query example_db
             (AttributeFilter.__call__ <$> example_filters)
             example_linked_heap) (Some 1%Z)
    = Ok (Generator [0] None)
  ∧ (str_lower "Json" = "csv" ∨ str_lower "Json" = "json")
  ∧ ∃ rows, serialize example_linked_heap (Generator [0] None) "Json" = Ok rows
            ∧ length rows = length (yielded (Generator [0] None)).
Proof.
  split; [exact example_construction_Ok|].
  split; [exact example_filters_comparable|].
  split; [exact example_limit_query|]. split; [exact example_json_format|].
  exact (query_results_can_be_written example_heap [0; 1; 2] [0; 1; 2]
           example_db example_linked_heap example_filters (Some 1%Z)
           (Generator [0] None) "Json" example_construction_Ok
           example_filters_comparable example_limit_query example_json_format).
Defined.

End writer_examples.
